(** * DataLoader: the chunk loader of NMIG (src/DataLoader.ts)

    A shallow embedding of the data-loading child process: the
    ['message'] handler, [deleteChunk], [processDataError],
    [populateTableWorker] with its event handlers, [getCopyStream],
    [disableTriggers] and [enableTriggers].

    The process is event driven.  Every handler of the source is a
    computation in a state monad over a [World] that holds the PostgreSQL
    session behind the pool client, the MySQL cursor, the JavaScript store
    (arrays and the copy-stream closures) and the trace of the calls made
    to the collaborators.  The environment (MySQL driver, pg-copy-streams)
    is a list of events; [step] dispatches one event to its handler.

    What is assumed of the collaborators, which are not part of the file:
    - a handler runs to its end before the next event is dispatched (the
      [await]s inside [processDataError] and [deleteChunk] are not points
      where another handler runs);
    - the MySQL driver delivers no row while the connection is paused;
    - a copy stream ends once, with ['finish'] or with ['error'], and COPY
      is transactional: all the rows piped into the stream are committed on
      ['finish'], none on ['error'];
    - every record piped into a copy stream counts as one row of the target
      table; the records carry no end of line of their own, and how the
      server splits the text of a batch of several records is not part of
      the model;
    - [log] and [generateError] do not throw;
    - a [client.query] may throw; which calls do is given by the script
      [pgFaults] of the world. *)

From Stdlib Require Import Ascii.
From stdpp Require Import base gmap strings list pretty.

Local Open Scope string_scope.
Local Open Scope list_scope.
Local Open Scope stdpp_scope.

(** ** Text helpers *)

Definition tab : string := String "009"%char EmptyString.
Definition newline : string := String "010"%char EmptyString.
Definition dquote : string := String "034"%char EmptyString.

(** [path.join(dir, file)] for a directory that is a normalized path
    without a separator at its end, and a file name; the normalization
    that [path.join] does otherwise is left out. *)
Definition path_join (dir file : string) : string := dir +:+ "/" +:+ file.

(** JavaScript truthiness of a [string | null]: [null] and the empty
    string are falsy. *)
Definition truthy (s : option string) : bool :=
  match s with
  | None => false
  | Some EmptyString => false
  | Some _ => true
  end.

(** ** Statements

    The statements the loader builds with template strings, kept
    structured; [sql_text] is the text the source builds. *)

Inductive Sql : Type :=
| SqlEmpty
| ShowSessionReplicationRole
| SetSessionReplicationRole (role : string)
| DeleteFromDataPool (dataPoolTableName : string) (dataPoolId : nat)
| SelectFrom (strSelectFieldList originalTableName : string)
| CopyFromStdin (pgTableName delimiter : string).

Definition sql_text (sql : Sql) : string :=
  match sql with
  | SqlEmpty => ""
  | ShowSessionReplicationRole => "SHOW session_replication_role;"
  | SetSessionReplicationRole role =>
      "SET session_replication_role = " +:+ role +:+ ";"
  | DeleteFromDataPool t id =>
      "DELETE FROM " +:+ t +:+ " WHERE id = " +:+ pretty id +:+ ";"
  | SelectFrom fields t =>
      "SELECT " +:+ fields +:+ " FROM `" +:+ t +:+ "`;"
  | CopyFromStdin t d =>
      "COPY " +:+ t +:+ " FROM STDIN DELIMITER '" +:+ d +:+ "' CSV;"
  end.

(** ** Configuration and messages *)

Record Conversion : Type := {
  _schema : string;
  _delimiter : string;
  _logsDirPath : string;
  _streamsHighWaterMark : Z;
  (** [conversion.shouldMigrateOnlyData()] *)
  shouldMigrateOnlyData : bool;
  (** [getDataPoolTableName(conversion)] *)
  getDataPoolTableName : string
}.

Record Chunk : Type := {
  _tableName : string;
  _selectFieldList : string;
  _rowsCnt : nat;
  _id : nat
}.

Record MessageToDataLoader : Type := {
  config : Conversion;
  chunk : Chunk
}.

(** [new MessageToMaster(tableName, rowsInserted)] *)
Record MessageToMaster : Type := {
  mm_tableName : string;
  mm_rowsInserted : nat
}.

(** ** Calls to the collaborators, in the order they are made *)

Inductive Effect : Type :=
| Log (message : string) (logFile : option string)
| GenerateError (message : string) (sql : Sql)
| GetMysqlClient
| GetPgClient
| ClientQuery (sql : Sql)
| CopyFrom (sql : Sql)
| ReleaseDbClient
| MysqlQuery (sql : Sql)
| MysqlPause
| MysqlResume
| MysqlDestroy
| Emit (eventName : string)
| CopyStreamDestroy (stream : nat)
| ProcessSend (message : MessageToMaster).

(** ** The JavaScript store

    [dataBuffer] is one array object shared by the ['result'] handler,
    the readable stream made from it and the closure of [getCopyStream];
    arrays therefore live in a heap and variables hold references. *)

Definition ref : Type := nat.

Inductive StreamStatus : Type := Open | Finished | Errored.

(** The closure of one call of [getCopyStream]: its parameters, the array
    piped into the stream by [Readable.from(dataBuffer)], and the state of
    the stream. *)
Record CopyStream : Type := {
  cs_conv : Conversion;
  cs_sqlCopy : Sql;
  cs_sql : Sql;
  cs_tableName : string;
  cs_rowsCnt : nat;
  cs_dataPoolId : nat;
  cs_originalSessionReplicationRole : option string;
  cs_dataBuffer : ref;
  cs_piped : option ref;
  cs_status : StreamStatus
}.

Inductive CursorStatus : Type := Streaming | Failed | Ended.

Record World : Type := {
  (** PostgreSQL: the session of the pool client, the data-pool table,
      the rows committed to the target table, the outcome of the coming
      [client.query] calls ([Some e] throws [e]; past the end of the list
      every call succeeds), and how often the client was released. *)
  session_replication_role : string;
  dataPool : gset nat;
  targetRows : list string;
  pgFaults : list (option string);
  released : nat;
  (** MySQL: the cursor of the retrieval query. *)
  paused : bool;
  cursor : CursorStatus;
  (** JavaScript store. *)
  arrays : gmap ref (list string);
  nextRef : ref;
  copyStreams : list CopyStream;
  (** Whether [process.send] is defined. *)
  processSendDefined : bool;
  trace : list Effect
}.

(** ** The monad of handlers *)

Definition M (A : Type) : Type := World → A * World.

Global Instance M_ret : MRet M := λ A a w, (a, w).
Global Instance M_bind : MBind M :=
  λ A B k m w, let '(a, w') := m w in k a w'.

Definition get : M World := λ w, (w, w).
Definition modify (f : World → World) : M unit := λ w, (tt, f w).
Definition exec {A} (m : M A) (w : World) : World := (m w).2.

(** Field updates. *)

Definition with_role (r : string) (w : World) : World :=
  {| session_replication_role := r; dataPool := dataPool w;
     targetRows := targetRows w; pgFaults := pgFaults w;
     released := released w; paused := paused w; cursor := cursor w;
     arrays := arrays w; nextRef := nextRef w;
     copyStreams := copyStreams w;
     processSendDefined := processSendDefined w; trace := trace w |}.

Definition with_dataPool (d : gset nat) (w : World) : World :=
  {| session_replication_role := session_replication_role w; dataPool := d;
     targetRows := targetRows w; pgFaults := pgFaults w;
     released := released w; paused := paused w; cursor := cursor w;
     arrays := arrays w; nextRef := nextRef w;
     copyStreams := copyStreams w;
     processSendDefined := processSendDefined w; trace := trace w |}.

Definition with_targetRows (t : list string) (w : World) : World :=
  {| session_replication_role := session_replication_role w;
     dataPool := dataPool w; targetRows := t; pgFaults := pgFaults w;
     released := released w; paused := paused w; cursor := cursor w;
     arrays := arrays w; nextRef := nextRef w;
     copyStreams := copyStreams w;
     processSendDefined := processSendDefined w; trace := trace w |}.

Definition with_pgFaults (f : list (option string)) (w : World) : World :=
  {| session_replication_role := session_replication_role w;
     dataPool := dataPool w; targetRows := targetRows w; pgFaults := f;
     released := released w; paused := paused w; cursor := cursor w;
     arrays := arrays w; nextRef := nextRef w;
     copyStreams := copyStreams w;
     processSendDefined := processSendDefined w; trace := trace w |}.

Definition with_released (n : nat) (w : World) : World :=
  {| session_replication_role := session_replication_role w;
     dataPool := dataPool w; targetRows := targetRows w;
     pgFaults := pgFaults w; released := n; paused := paused w;
     cursor := cursor w; arrays := arrays w; nextRef := nextRef w;
     copyStreams := copyStreams w;
     processSendDefined := processSendDefined w; trace := trace w |}.

Definition with_paused (b : bool) (w : World) : World :=
  {| session_replication_role := session_replication_role w;
     dataPool := dataPool w; targetRows := targetRows w;
     pgFaults := pgFaults w; released := released w; paused := b;
     cursor := cursor w; arrays := arrays w; nextRef := nextRef w;
     copyStreams := copyStreams w;
     processSendDefined := processSendDefined w; trace := trace w |}.

Definition with_cursor (c : CursorStatus) (w : World) : World :=
  {| session_replication_role := session_replication_role w;
     dataPool := dataPool w; targetRows := targetRows w;
     pgFaults := pgFaults w; released := released w; paused := paused w;
     cursor := c; arrays := arrays w; nextRef := nextRef w;
     copyStreams := copyStreams w;
     processSendDefined := processSendDefined w; trace := trace w |}.

Definition with_arrays (a : gmap ref (list string)) (w : World) : World :=
  {| session_replication_role := session_replication_role w;
     dataPool := dataPool w; targetRows := targetRows w;
     pgFaults := pgFaults w; released := released w; paused := paused w;
     cursor := cursor w; arrays := a; nextRef := nextRef w;
     copyStreams := copyStreams w;
     processSendDefined := processSendDefined w; trace := trace w |}.

Definition with_nextRef (n : ref) (w : World) : World :=
  {| session_replication_role := session_replication_role w;
     dataPool := dataPool w; targetRows := targetRows w;
     pgFaults := pgFaults w; released := released w; paused := paused w;
     cursor := cursor w; arrays := arrays w; nextRef := n;
     copyStreams := copyStreams w;
     processSendDefined := processSendDefined w; trace := trace w |}.

Definition with_copyStreams (l : list CopyStream) (w : World) : World :=
  {| session_replication_role := session_replication_role w;
     dataPool := dataPool w; targetRows := targetRows w;
     pgFaults := pgFaults w; released := released w; paused := paused w;
     cursor := cursor w; arrays := arrays w; nextRef := nextRef w;
     copyStreams := l;
     processSendDefined := processSendDefined w; trace := trace w |}.

Definition with_trace (t : list Effect) (w : World) : World :=
  {| session_replication_role := session_replication_role w;
     dataPool := dataPool w; targetRows := targetRows w;
     pgFaults := pgFaults w; released := released w; paused := paused w;
     cursor := cursor w; arrays := arrays w; nextRef := nextRef w;
     copyStreams := copyStreams w;
     processSendDefined := processSendDefined w; trace := t |}.

Definition emit (e : Effect) : M unit :=
  modify (λ w, with_trace (trace w ++ [e]) w).

(** ** Collaborators *)

(** [log(conv, message, file?)] and [generateError(conv, message, sql)]
    of FsOps only write to the log files. *)
Definition log (message : string) (logFile : option string) : M unit :=
  emit (Log message logFile).

Definition generateError (message : string) (sql : Sql) : M unit :=
  emit (GenerateError message sql).

(** What a statement does to the session once PostgreSQL accepts it; the
    result is [rows[0].session_replication_role] where there is one. *)
Definition run_statement (sql : Sql) : M (option string) :=
  match sql with
  | ShowSessionReplicationRole =>
      w ← get; mret (Some (session_replication_role w))
  | SetSessionReplicationRole role =>
      modify (with_role role);; mret None
  | DeleteFromDataPool _ id =>
      modify (λ w, with_dataPool (dataPool w ∖ {[ id ]}) w);; mret None
  | _ => mret None
  end.

(** [await client.query(sql)]: [inl e] when the call throws [e]. *)
Definition client_query (sql : Sql) : M (string + option string) :=
  emit (ClientQuery sql);;
  w ← get;
  match pgFaults w with
  | Some e :: rest => modify (with_pgFaults rest);; mret (inl e)
  | None :: rest =>
      modify (with_pgFaults rest);; r ← run_statement sql; mret (inr r)
  | [] => r ← run_statement sql; mret (inr r)
  end.

(** [DBAccess.releaseDbClient(conversion, client)] *)
Definition releaseDbClient : M unit :=
  emit ReleaseDbClient;;
  modify (λ w, with_released (S (released w)) w).

(** [processSend]: calls [process.send] when it is defined. *)
Definition processSend (x : MessageToMaster) : M unit :=
  w ← get;
  if processSendDefined w then emit (ProcessSend x) else mret tt.

(** ** enableTriggers, disableTriggers *)

Definition enableTriggers (originalSessionReplicationRole : string) : M unit :=
  let sql := SetSessionReplicationRole originalSessionReplicationRole in
  r ← client_query sql;
  match r with
  | inr _ => mret tt
  | inl error =>
      generateError (tab +:+ "--[DataLoader::enableTriggers] " +:+ error) sql
  end.

Definition disableTriggers : M string :=
  let sql := ShowSessionReplicationRole in
  let originalSessionReplicationRole := "origin" in
  r ← client_query sql;
  match r with
  | inl error =>
      generateError (tab +:+ "--[DataLoader::disableTriggers] " +:+ error) sql;;
      mret originalSessionReplicationRole
  | inr None =>
      (* [queryResult.rows[0]] is undefined: the property access throws *)
      generateError
        (tab +:+ "--[DataLoader::disableTriggers] TypeError") sql;;
      mret originalSessionReplicationRole
  | inr (Some role) =>
      let originalSessionReplicationRole := role in
      let sql := SetSessionReplicationRole "replica" in
      r ← client_query sql;
      match r with
      | inr _ => mret originalSessionReplicationRole
      | inl error =>
          generateError
            (tab +:+ "--[DataLoader::disableTriggers] " +:+ error) sql;;
          mret originalSessionReplicationRole
      end
  end.

(** ** deleteChunk, processDataError *)

Definition deleteChunk (conversion : Conversion) (dataPoolId : nat)
    (originalSessionReplicationRole : option string) : M unit :=
  let sql := DeleteFromDataPool (getDataPoolTableName conversion) dataPoolId in
  r ← client_query sql;
  match r with
  | inr _ =>
      match originalSessionReplicationRole with
      | Some role =>
          if truthy originalSessionReplicationRole
          then enableTriggers role else mret tt
      | None => mret tt
      end
  | inl error =>
      generateError (tab +:+ "--[DataLoader::deleteChunk] " +:+ error) sql
  end;;
  releaseDbClient.

Definition processDataError (conv : Conversion) (streamError : string)
    (sql sqlCopy : Sql) (tableName : string) (dataPoolId : nat)
    (originalSessionReplicationRole : option string) : M unit :=
  generateError (tab +:+ "--[populateTableWorker] " +:+ streamError) sqlCopy;;
  let rejectedData :=
    tab +:+ "--[populateTableWorker] Error loading table data:" +:+ newline
        +:+ sql_text sql +:+ newline in
  log rejectedData
    (Some (path_join (_logsDirPath conv) (tableName +:+ ".log")));;
  deleteChunk conv dataPoolId originalSessionReplicationRole;;
  processSend {| mm_tableName := tableName; mm_rowsInserted := 0 |}.

(** ** populateTableWorker

    The local constants of one call of [populateTableWorker], which its
    event handlers close over.  [dataBuffer] is declared with [let] but is
    never assigned again: it always refers to the array allocated at the
    start. *)

Record Worker : Type := {
  conversion : Conversion;
  tableName : string;
  originalTableName : string;
  sqlRetrieve : Sql;
  sqlCopy : Sql;
  rowsCnt : nat;
  dataPoolId : nat;
  originalSessionReplicationRole : option string;
  dataBuffer : ref
}.

(** Array operations on the store. *)

Definition array (r : ref) (w : World) : list string :=
  default [] (arrays w !! r).

(** [[]]: a new empty array. *)
Definition new_array : M ref :=
  w ← get;
  let r := nextRef w in
  modify (λ w, with_nextRef (S r) (with_arrays (<[r := []]> (arrays w)) w));;
  mret r.

(** [a.push(x)] *)
Definition push (r : ref) (x : string) : M unit :=
  modify (λ w, with_arrays (<[r := array r w ++ [x]]> (arrays w)) w).

Definition set_stream (i : nat) (f : CopyStream → CopyStream) : M unit :=
  modify (λ w, with_copyStreams (alter f i (copyStreams w)) w).

Definition rebind_dataBuffer (r : ref) (cs : CopyStream) : CopyStream :=
  {| cs_conv := cs_conv cs; cs_sqlCopy := cs_sqlCopy cs; cs_sql := cs_sql cs;
     cs_tableName := cs_tableName cs; cs_rowsCnt := cs_rowsCnt cs;
     cs_dataPoolId := cs_dataPoolId cs;
     cs_originalSessionReplicationRole :=
       cs_originalSessionReplicationRole cs;
     cs_dataBuffer := r; cs_piped := cs_piped cs;
     cs_status := cs_status cs |}.

Definition set_piped (r : ref) (cs : CopyStream) : CopyStream :=
  {| cs_conv := cs_conv cs; cs_sqlCopy := cs_sqlCopy cs; cs_sql := cs_sql cs;
     cs_tableName := cs_tableName cs; cs_rowsCnt := cs_rowsCnt cs;
     cs_dataPoolId := cs_dataPoolId cs;
     cs_originalSessionReplicationRole :=
       cs_originalSessionReplicationRole cs;
     cs_dataBuffer := cs_dataBuffer cs; cs_piped := Some r;
     cs_status := cs_status cs |}.

Definition set_status (st : StreamStatus) (cs : CopyStream) : CopyStream :=
  {| cs_conv := cs_conv cs; cs_sqlCopy := cs_sqlCopy cs; cs_sql := cs_sql cs;
     cs_tableName := cs_tableName cs; cs_rowsCnt := cs_rowsCnt cs;
     cs_dataPoolId := cs_dataPoolId cs;
     cs_originalSessionReplicationRole :=
       cs_originalSessionReplicationRole cs;
     cs_dataBuffer := cs_dataBuffer cs; cs_piped := cs_piped cs;
     cs_status := st |}.

(** [mysqlClient.pause()], [mysqlClient.resume()], [mysqlClient.destroy()] *)
Definition mysql_pause : M unit := emit MysqlPause;; modify (with_paused true).
Definition mysql_resume : M unit :=
  emit MysqlResume;; modify (with_paused false).
Definition mysql_destroy : M unit := emit MysqlDestroy.

(** *** getCopyStream

    Opens the copy stream and returns it (its index in [copyStreams]);
    the handlers registered on it are [onFinish] and [onCopyError]. *)
Definition getCopyStream (conv : Conversion) (sqlCopy sql : Sql)
    (tableName : string) (rowsCnt dataPoolId : nat)
    (originalSessionReplicationRole : option string) (dataBuffer : ref)
    : M nat :=
  emit (CopyFrom sqlCopy);;
  w ← get;
  let copyStream :=
    {| cs_conv := conv; cs_sqlCopy := sqlCopy; cs_sql := sql;
       cs_tableName := tableName; cs_rowsCnt := rowsCnt;
       cs_dataPoolId := dataPoolId;
       cs_originalSessionReplicationRole := originalSessionReplicationRole;
       cs_dataBuffer := dataBuffer; cs_piped := None; cs_status := Open |} in
  modify (with_copyStreams (copyStreams w ++ [copyStream]));;
  mret (length (copyStreams w)).

(** [eventEmitter.on('chunkLoaded', ...)] *)
Definition onChunkLoaded : M unit := mysql_resume.

(** [copyStream.on('finish', ...)]: the assignment [dataBuffer = []]
    is to the parameter of [getCopyStream]; it binds that parameter to a new
    array and leaves the array of [populateTableWorker] as it is. *)
Definition onFinish (i : nat) : M unit :=
  r ← new_array;
  set_stream i (rebind_dataBuffer r);;
  emit (Emit "chunkLoaded");;
  onChunkLoaded;;
  emit (CopyStreamDestroy i).

(** [copyStream.on('error', ...)] *)
Definition onCopyError (cs : CopyStream) (copyStreamError : string) : M unit :=
  processDataError (cs_conv cs) copyStreamError (cs_sql cs) (cs_sqlCopy cs)
    (cs_tableName cs) (cs_dataPoolId cs)
    (cs_originalSessionReplicationRole cs).

(** [eventEmitter.on('chunkBuffered', ...)] *)
Definition onChunkBuffered (c : Worker) : M unit :=
  copyStream ← getCopyStream (conversion c) (sqlCopy c) (sqlRetrieve c)
                  (tableName c) (rowsCnt c) (dataPoolId c)
                  (originalSessionReplicationRole c) (dataBuffer c);
  (* Readable.from(dataBuffer, readableOptions).pipe(copyStream) *)
  set_stream copyStream (set_piped (dataBuffer c)).

(** [query.on('error', ...)] *)
Definition onQueryError (c : Worker) (errorSqlRetrieve : string) : M unit :=
  processDataError (conversion c) errorSqlRetrieve (sqlRetrieve c) (sqlCopy c)
    (tableName c) (dataPoolId c) (originalSessionReplicationRole c).

(** [query.on('end', ...)] *)
Definition onEnd : M unit := mysql_destroy.

(** ** Observations on a world and on its trace *)

Definition is_release (e : Effect) : bool :=
  match e with ReleaseDbClient => true | _ => false end.

Definition is_send (e : Effect) : bool :=
  match e with ProcessSend _ => true | _ => false end.

Definition is_ledger_delete (e : Effect) : bool :=
  match e with ClientQuery (DeleteFromDataPool _ _) => true | _ => false end.

Definition is_query (e : Effect) : bool :=
  match e with ClientQuery _ => true | _ => false end.

Definition is_copy (e : Effect) : bool :=
  match e with CopyFrom _ => true | _ => false end.

(** Calls that extract from the source or load into the target. *)
Definition is_transfer (e : Effect) : bool :=
  match e with
  | GetMysqlClient | MysqlQuery _ | CopyFrom _ => true
  | _ => false
  end.

Definition is_emit (e : Effect) : bool :=
  match e with Emit _ => true | _ => false end.

Definition is_cleanup (e : Effect) : bool :=
  is_release e || is_send e || is_ledger_delete e.

(** The calls [deleteChunk] can make between its DELETE and the release:
    the SET of [enableTriggers] and error records. *)
Definition is_restore_step (e : Effect) : bool :=
  match e with
  | ClientQuery (SetSessionReplicationRole _) | GenerateError _ _ => true
  | _ => false
  end.

(** Calls that touch neither the PostgreSQL client nor the master. *)
Definition quiet (e : Effect) : bool :=
  negb (is_query e || is_release e || is_send e).

Definition count (p : Effect → bool) (t : list Effect) : nat :=
  length (List.filter p t).

(** The part of the world that the failure path never touches. *)
Definition frame (w : World) :=
  (targetRows w, arrays w, nextRef w, copyStreams w, paused w, cursor w,
   processSendDefined w).

(** The part of the world that belongs to PostgreSQL and the pool. *)
Definition pg_state (w : World) :=
  (session_replication_role w, dataPool w, pgFaults w, released w).

(** The calls [deleteChunk] makes between its DELETE and the release when
    no statement throws. *)
Definition restore_effects (role : option string) : list Effect :=
  match role with
  | Some r => if truthy role then [ClientQuery (SetSessionReplicationRole r)]
              else []
  | None => []
  end.

Definition restored_role (role : option string) (current : string) : string :=
  match role with
  | Some r => if truthy role then r else current
  | None => current
  end.

(** The copy stream was opened by the handlers of worker [c]. *)
Definition stream_of (c : Worker) (cs : CopyStream) : Prop :=
  cs_conv cs = conversion c ∧ cs_sqlCopy cs = sqlCopy c ∧
  cs_sql cs = sqlRetrieve c ∧ cs_tableName cs = tableName c ∧
  cs_dataPoolId cs = dataPoolId c ∧
  cs_originalSessionReplicationRole cs = originalSessionReplicationRole c.

Section DataLoader.

(** Rows of the source, the encoder [parse] of json2csv (called with the
    row and the delimiter; [inl e] when it throws [e]),
    [extraConfigProcessor.getTableName] and the consistency check
    [dataTransferred], which reads the data pool and the target table. *)
Context {Row : Type}.
Variable parse : Row → string → string + string.
Variable getTableName : Conversion → string → bool → string.
Variable dataTransferred : Conversion → nat → gset nat → list string → bool.

(** [query.on('result', ...)] *)
Definition onResult (c : Worker) (row : Row) : M unit :=
  match parse row (_delimiter (conversion c)) with
  | inr csv =>
      push (dataBuffer c) csv;;
      w ← get;
      if (_streamsHighWaterMark (conversion c)
            <=? Z.of_nat (length (array (dataBuffer c) w)))%Z
      then
        emit (Emit "chunkBuffered");;
        onChunkBuffered c;;
        mysql_pause
      else mret tt
  | inl csvParsingError =>
      processDataError (conversion c) csvParsingError SqlEmpty SqlEmpty
        (originalTableName c) (dataPoolId c)
        (originalSessionReplicationRole c)
  end.

Definition populateTableWorker (conversion : Conversion)
    (tableName strSelectFieldList : string) (rowsCnt dataPoolId : nat)
    : M Worker :=
  let originalTableName := getTableName conversion tableName true in
  let sqlRetrieve := SelectFrom strSelectFieldList originalTableName in
  emit GetMysqlClient;;
  let pgTableName :=
    dquote +:+ _schema conversion +:+ dquote +:+ "." +:+
    dquote +:+ tableName +:+ dquote in
  let sqlCopy := CopyFromStdin pgTableName (_delimiter conversion) in
  emit GetPgClient;;
  originalSessionReplicationRole ←
    (if shouldMigrateOnlyData conversion
     then role ← disableTriggers; mret (Some role)
     else mret None);
  emit (MysqlQuery sqlRetrieve);;
  modify (λ w, with_cursor Streaming (with_paused false w));;
  dataBuffer ← new_array;
  mret {| conversion := conversion; tableName := tableName;
          originalTableName := originalTableName;
          sqlRetrieve := sqlRetrieve; sqlCopy := sqlCopy;
          rowsCnt := rowsCnt; dataPoolId := dataPoolId;
          originalSessionReplicationRole := originalSessionReplicationRole;
          dataBuffer := dataBuffer |}.

Definition loading_message (conv : Conversion) (chunk : Chunk) : string :=
  tab +:+ "--[loadData] Loading the data into " +:+
  dquote +:+ _schema conv +:+ dquote +:+ "." +:+
  dquote +:+ _tableName chunk +:+ dquote +:+ " table...".

(** [process.on('message', ...)]: the worker is returned when the normal
    path was taken. *)
Definition onMessage (signal : MessageToDataLoader) : M (option Worker) :=
  let conv := config signal in
  let chunk := chunk signal in
  log (loading_message conv chunk) None;;
  w ← get;
  let isRecoveryMode :=
    dataTransferred conv (_id chunk) (dataPool w) (targetRows w) in
  if negb isRecoveryMode then
    c ← populateTableWorker conv (_tableName chunk) (_selectFieldList chunk)
          (_rowsCnt chunk) (_id chunk);
    mret (Some c)
  else
    emit GetPgClient;;
    deleteChunk conv (_id chunk) None;;
    mret None.

(** ** Events

    What the MySQL driver and the copy streams deliver.  A row is
    delivered only while the cursor streams and is not paused; a copy
    stream ends once, with ['finish'] (its rows are committed to the
    target table, all of them) or with ['error'] (none is). *)

Inductive Event : Type :=
| Result (row : Row)
| QueryError (errorSqlRetrieve : string)
| QueryEnd
| CopyFinish (stream : nat)
| CopyError (stream : nat) (copyStreamError : string).

Definition piped_rows (cs : CopyStream) (w : World) : list string :=
  match cs_piped cs with
  | Some r => array r w
  | None => []
  end.

(** The stream with index [i], when it has neither finished nor failed. *)
Definition open_in (l : list CopyStream) (i : nat) : option CopyStream :=
  match l !! i with
  | Some cs =>
      match cs_status cs with
      | Open => Some cs
      | _ => None
      end
  | None => None
  end.

Definition open_stream (i : nat) (w : World) : option CopyStream :=
  open_in (copyStreams w) i.

Definition step (c : Worker) (ev : Event) (w : World) : option World :=
  match ev with
  | Result row =>
      match cursor w, paused w with
      | Streaming, false => Some (exec (onResult c row) w)
      | _, _ => None
      end
  | QueryError e =>
      match cursor w with
      | Streaming => Some (exec (onQueryError c e) (with_cursor Failed w))
      | _ => None
      end
  | QueryEnd =>
      match cursor w with
      | Ended => None
      | _ => Some (exec onEnd (with_cursor Ended w))
      end
  | CopyFinish i =>
      match open_stream i w with
      | Some cs =>
          Some (exec (set_stream i (set_status Finished);; onFinish i)
                  (with_targetRows (targetRows w ++ piped_rows cs w) w))
      | None => None
      end
  | CopyError i e =>
      match open_stream i w with
      | Some cs =>
          Some (exec (set_stream i (set_status Errored);; onCopyError cs e) w)
      | None => None
      end
  end.

Fixpoint run (c : Worker) (evs : list Event) (w : World) : option World :=
  match evs with
  | [] => Some w
  | ev :: evs' =>
      match step c ev w with
      | Some w' => run c evs' w'
      | None => None
      end
  end.

(** ** Runs

    The events of a chunk on which nothing fails. *)
Definition success_event (c : Worker) (ev : Event) : bool :=
  match ev with
  | Result row =>
      match parse row (_delimiter (conversion c)) with
      | inr _ => true
      | inl _ => false
      end
  | QueryEnd | CopyFinish _ => true
  | QueryError _ | CopyError _ _ => false
  end.

(** Batches are sequential: at most one copy stream is open, and the
    cursor is paused while one is. *)
Definition sequential (c : Worker) (w : World) : Prop :=
  Forall (stream_of c) (copyStreams w) ∧
  (∀ i j, is_Some (open_stream i w) → is_Some (open_stream j w) → i = j) ∧
  (paused w = false → ∀ i, open_stream i w = None).


(** The worlds a worker reaches from the message that started it, in a
    process that had opened no copy stream before. *)
Definition reachable (c : Worker) (w : World) : Prop :=
  ∃ signal w0 w1 evs,
    copyStreams w0 = [] ∧ onMessage signal w0 = (Some c, w1) ∧
    run c evs w1 = Some w.

End DataLoader.

(** ** A concrete instance

    Rows are already encoded ([Some csv]) or cannot be encoded ([None]);
    table names are not renamed. *)

Definition example_parse (row : option string) (delimiter : string)
    : string + string :=
  match row with
  | Some csv => inr csv
  | None => inl "illegal value"
  end.

Definition example_getTableName (conversion : Conversion)
    (tableName : string) (shouldGetOriginal : bool) : string := tableName.

Definition example_conversion (watermark : Z) (onlyData : bool) : Conversion :=
  {| _schema := "public"; _delimiter := ","; _logsDirPath := "logs";
     _streamsHighWaterMark := watermark; shouldMigrateOnlyData := onlyData;
     getDataPoolTableName := "data_pool" |}.

Definition example_signal (watermark : Z) (onlyData : bool)
    : MessageToDataLoader :=
  {| config := example_conversion watermark onlyData;
     chunk := {| _tableName := "orders"; _selectFieldList := "*";
                 _rowsCnt := 3; _id := 7 |} |}.

(** A new process: chunk 7 is in the data pool, the target table is
    empty. *)
Definition example_world (role : string) (faults : list (option string))
    : World :=
  {| session_replication_role := role; dataPool := {[ 7 ]}; targetRows := [];
     pgFaults := faults; released := 0; paused := false; cursor := Ended;
     arrays := ∅; nextRef := 0; copyStreams := [];
     processSendDefined := true; trace := [] |}.

(** The message is handled on the normal path, then the events. *)
Definition example_run (watermark : Z) (onlyData : bool) (role : string)
    (faults : list (option string)) (evs : list (@Event (option string)))
    : option (Worker * World) :=
  match onMessage example_getTableName (λ _ _ _ _, false)
          (example_signal watermark onlyData) (example_world role faults) with
  | (Some c, w) =>
      match run example_parse c evs w with
      | Some w' => Some (c, w')
      | None => None
      end
  | (None, _) => None
  end.

(** The worker that [onMessage] starts for the example chunk, the world
    it starts in, and the world after some events. *)
Definition example_worker (watermark : Z) (onlyData : bool)
    (role : option string) : Worker :=
  {| conversion := example_conversion watermark onlyData;
     tableName := "orders"; originalTableName := "orders";
     sqlRetrieve := SelectFrom "*" "orders";
     sqlCopy :=
       CopyFromStdin
         (dquote +:+ "public" +:+ dquote +:+ "." +:+
          dquote +:+ "orders" +:+ dquote) ",";
     rowsCnt := 3; dataPoolId := 7;
     originalSessionReplicationRole := role; dataBuffer := 0 |}.

Definition example_started (watermark : Z) (onlyData : bool) (role : string)
    (faults : list (option string)) : World :=
  exec (onMessage example_getTableName (λ _ _ _ _, false)
          (example_signal watermark onlyData)) (example_world role faults).

Definition example_after (c : Worker) (evs : list (@Event (option string)))
    (w : World) : World :=
  default w (run example_parse c evs w).

(** The copy stream the worker opens on its buffer. *)
Definition example_stream (c : Worker) : CopyStream :=
  {| cs_conv := conversion c; cs_sqlCopy := sqlCopy c;
     cs_sql := sqlRetrieve c; cs_tableName := tableName c;
     cs_rowsCnt := rowsCnt c; cs_dataPoolId := dataPoolId c;
     cs_originalSessionReplicationRole := originalSessionReplicationRole c;
     cs_dataBuffer := dataBuffer c; cs_piped := Some (dataBuffer c);
     cs_status := Open |}.

(** Event lists of the example: one batch that succeeds; three batches of
    one row; a copy stream that fails; a row that cannot be encoded, between
    rows that can. *)
Definition one_batch : list (@Event (option string)) :=
  [Result (Some "a"); CopyFinish 0; QueryEnd].

Definition three_batches : list (@Event (option string)) :=
  [Result (Some "a"); CopyFinish 0; Result (Some "b"); CopyFinish 1;
   Result (Some "c")].

Definition second_batch_open : list (@Event (option string)) :=
  [Result (Some "a"); CopyFinish 0; Result (Some "b")].

Definition two_batches : list (@Event (option string)) :=
  [Result (Some "a"); CopyFinish 0; Result (Some "b"); CopyFinish 1].

Definition finished_batch : list (@Event (option string)) :=
  [Result (Some "a"); CopyFinish 0].

Definition failed_batch : list (@Event (option string)) :=
  [Result (Some "a"); CopyError 0 "copy failed"].

Definition bad_row_then_row : list (@Event (option string)) :=
  [Result None; Result (Some "a"); CopyFinish 0].

(** A new process that finds a second chunk, 8, in the data pool beside
    chunk 7, and the world in which its worker starts. *)
Definition two_chunks_world : World :=
  {| session_replication_role := "origin"; dataPool := {[ 7; 8 ]};
     targetRows := []; pgFaults := []; released := 0; paused := false;
     cursor := Ended; arrays := ∅; nextRef := 0; copyStreams := [];
     processSendDefined := true; trace := [] |}.

Definition two_chunks_started : World :=
  exec (onMessage example_getTableName (λ _ _ _ _, false)
          (example_signal 1 false)) two_chunks_world.

(** ** Further observations on runs *)

(** The statements that read or set the mode of the session. *)
Definition is_mode_statement (e : Effect) : bool :=
  match e with
  | ClientQuery ShowSessionReplicationRole
  | ClientQuery (SetSessionReplicationRole _) => true
  | _ => false
  end.

Definition is_set (e : Effect) : bool :=
  match e with
  | ClientQuery (SetSessionReplicationRole _) => true
  | _ => false
  end.

(** Whether the coming [client.query] throws. *)
Definition next_throws (w : World) : bool :=
  match pgFaults w with
  | Some _ :: _ => true
  | _ => false
  end.

(** Every copy stream is fed from the buffer of the worker. *)
Definition piped_from (c : Worker) (w : World) : Prop :=
  Forall (λ cs, cs_piped cs = Some (dataBuffer c)) (copyStreams w).

Section Runs.

Context {Row : Type}.
Variable parse : Row → string → string + string.

(** The records of the rows of [evs] that could be encoded, in the order
    of their delivery. *)
Fixpoint encoded (c : Worker) (evs : list (@Event Row)) : list string :=
  match evs with
  | [] => []
  | Result row :: evs' =>
      match parse row (_delimiter (conversion c)) with
      | inr csv => csv :: encoded c evs'
      | inl _ => encoded c evs'
      end
  | _ :: evs' => encoded c evs'
  end.

(** The number of events of [evs] on which something fails. *)
Definition failures (c : Worker) (evs : list (@Event Row)) : nat :=
  length (List.filter (λ ev, negb (success_event parse c ev)) evs).

(** The number of rows delivered by [evs]. *)
Definition results (evs : list (@Event Row)) : nat :=
  length (List.filter (λ ev, match ev with Result _ => true | _ => false end)
            evs).

End Runs.

(** More event lists of the example: a retrieval error after a row; two
    rows only. *)
Definition row_then_query_error : list (@Event (option string)) :=
  [Result (Some "a"); QueryError "connection lost"].

Definition two_rows_then_end : list (@Event (option string)) :=
  [Result (Some "a"); Result (Some "b"); QueryEnd].

Definition mixed_failures : list (@Event (option string)) :=
  [Result None; Result (Some "a"); CopyError 0 "copy failed";
   QueryError "connection lost"].

(** ** Proofs *)

Lemma count_app p t1 t2 : count p (t1 ++ t2) = count p t1 + count p t2.
Proof. unfold count. by rewrite List.filter_app, length_app. Qed.

Lemma count_zero (p q : Effect → bool) t :
  forallb q t = true → (∀ e, q e = true → p e = false) → count p t = 0.
Proof.
  intros Hall Hq. unfold count. induction t as [|e t IH]; [done|].
  cbn in *. apply andb_true_iff in Hall as [He Ht].
  rewrite (Hq e He). by apply IH.
Qed.

Ltac monad :=
  cbv [exec mbind mret M_bind M_ret get modify emit log generateError
       client_query run_statement releaseDbClient processSend
       enableTriggers disableTriggers deleteChunk processDataError
       mysql_pause mysql_resume mysql_destroy new_array push set_stream
       getCopyStream onChunkLoaded onFinish onCopyError onChunkBuffered
       onQueryError onEnd].

(** Case analysis on the outcome of the coming statements and on
    [process.send]. *)
Ltac faults :=
  repeat (cbn;
    match goal with
    | |- context [match pgFaults ?w with _ => _ end] =>
        let E := fresh "Hfaults" in destruct (pgFaults w) as [|[?|] ?] eqn:E
    | |- context [match ?l with [] => _ | _ :: _ => _ end] =>
        is_var l; destruct l as [|[?|] ?]
    | |- context [if processSendDefined ?w then _ else _] =>
        let E := fresh "Hsend" in destruct (processSendDefined w) eqn:E
    end); cbn.

Lemma app_cons_assoc {A} (l : list A) x l' : (l ++ [x]) ++ l' = l ++ x :: l'.
Proof. by rewrite <- app_assoc. Qed.

Section Cleanup.

Variables (conv : Conversion) (err : string) (sql sqlCopy : Sql)
          (tn : string) (id : nat) (role : option string).

Local Abbreviation failed w :=
  (exec (processDataError conv err sql sqlCopy tn id role) w).

Lemma processDataError_frame w : frame (failed w) = frame w.
Proof.
  monad. destruct role as [[|? ?]|]; faults; reflexivity.
Qed.

Lemma processDataError_released w : released (failed w) = S (released w).
Proof.
  monad. destruct role as [[|? ?]|]; faults; reflexivity.
Qed.

(** The calls of the failure path, whatever the statements do. *)
Lemma processDataError_trace w :
  ∃ mid,
    trace (failed w) =
      trace w ++
      [GenerateError (tab +:+ "--[populateTableWorker] " +:+ err) sqlCopy;
       Log (tab +:+ "--[populateTableWorker] Error loading table data:"
                +:+ newline +:+ sql_text sql +:+ newline)
           (Some (path_join (_logsDirPath conv) (tn +:+ ".log")));
       ClientQuery (DeleteFromDataPool (getDataPoolTableName conv) id)] ++
      mid ++
      ReleaseDbClient ::
      (if processSendDefined w
       then [ProcessSend {| mm_tableName := tn; mm_rowsInserted := 0 |}]
       else []) ∧
    forallb is_restore_step mid = true ∧
    (pgFaults w = [] → mid = restore_effects role).
Proof.
  monad.
  destruct role as [[|? ?]|]; faults; rewrite ?app_cons_assoc;
    first [ exists []; by repeat split
          | eexists [_]; by repeat split
          | eexists [_; _]; by repeat split ].
Qed.

(** What the failure path does to PostgreSQL when no statement throws. *)
Lemma processDataError_pg w :
  pgFaults w = [] →
  dataPool (failed w) = dataPool w ∖ {[ id ]} ∧
  session_replication_role (failed w) =
    restored_role role (session_replication_role w) ∧
  pgFaults (failed w) = [].
Proof.
  intros H. monad.
  destruct role as [[|? ?]|]; cbn; rewrite H; faults; done.
Qed.

(** One failure is one DELETE on the data pool, one release and, when
    [process.send] is defined, one message; no copy stream is opened. *)
Lemma processDataError_counts w :
  count is_ledger_delete (trace (failed w)) =
    S (count is_ledger_delete (trace w)) ∧
  count is_release (trace (failed w)) = S (count is_release (trace w)) ∧
  count is_send (trace (failed w)) =
    (if processSendDefined w then 1 else 0) + count is_send (trace w) ∧
  count is_copy (trace (failed w)) = count is_copy (trace w) ∧
  count is_emit (trace (failed w)) = count is_emit (trace w).
Proof.
  destruct (processDataError_trace w) as (mid & -> & Hmid & _).
  rewrite !count_app.
  rewrite !(count_zero _ _ mid) by
    (try exact Hmid; intros e; destruct e as [| | | |[]| | | | | | | | |];
     done).
  destruct (processSendDefined w); cbn; lia.
Qed.

End Cleanup.

Lemma alter_snoc {A} (f : A → A) (l : list A) (x : A) :
  alter f (length l) (l ++ [x]) = l ++ [f x].
Proof. induction l as [|y l IH]; cbn; [done | by rewrite IH]. Qed.

(** *** Open streams in a list of streams *)

Lemma open_in_Some l i cs :
  open_in l i = Some cs ↔ l !! i = Some cs ∧ cs_status cs = Open.
Proof.
  unfold open_in. destruct (l !! i) as [cs'|]; [|by split; [|intros []]].
  destruct (cs_status cs') eqn:E; (split; [intros [= ->]|intros [[= ->] ?]]);
    done || congruence.
Qed.

Lemma open_in_alter_ne f l i j :
  i ≠ j → open_in (alter f i l) j = open_in l j.
Proof. intros. unfold open_in. by rewrite list_lookup_alter_ne. Qed.

Lemma open_in_alter_closed f l i :
  (∀ cs, cs_status (f cs) ≠ Open) → open_in (alter f i l) i = None.
Proof.
  intros Hf. unfold open_in. rewrite list_lookup_alter_eq.
  destruct (l !! i) as [cs|]; cbn; [|done].
  specialize (Hf cs). by destruct (cs_status (f cs)).
Qed.

Lemma open_in_alter_same f l i j :
  (∀ cs, cs_status (f cs) = cs_status cs) →
  is_Some (open_in (alter f i l) j) ↔ is_Some (open_in l j).
Proof.
  intros Hf. destruct (decide (i = j)) as [->|];
    [|by rewrite open_in_alter_ne].
  unfold open_in. rewrite list_lookup_alter_eq.
  destruct (l !! j) as [cs|]; cbn; [|done]. rewrite Hf.
  destruct (cs_status cs); split; intros [? ?]; by eauto.
Qed.

Lemma open_in_snoc l cs i :
  (∀ j, open_in l j = None) → is_Some (open_in (l ++ [cs]) i) → i = length l.
Proof.
  intros Hnone [cs' [Hl Hst]%open_in_Some].
  apply lookup_snoc_Some in Hl as [[Hlt Hl]|[? _]]; [|done].
  assert (open_in l i = Some cs') as Hopen by by apply open_in_Some.
  by rewrite Hnone in Hopen.
Qed.


Section Steps.

Context {Row : Type}.
Variable parse : Row → string → string + string.
Variable getTableName : Conversion → string → bool → string.
Variable dataTransferred : Conversion → nat → gset nat → list string → bool.

Local Abbreviation step := (step parse).
Local Abbreviation run := (run parse).
Local Abbreviation onResult := (onResult parse).
Local Abbreviation onMessage := (onMessage getTableName dataTransferred).
Local Abbreviation success_event := (success_event parse).
Local Abbreviation reachable := (reachable parse getTableName dataTransferred).

Implicit Types (c : Worker) (w : World) (ev : @Event Row).

(** *** The ['result'] handler *)

Lemma onResult_failure c row e w :
  parse row (_delimiter (conversion c)) = inl e →
  exec (onResult c row) w =
    exec (processDataError (conversion c) e SqlEmpty SqlEmpty
            (originalTableName c) (dataPoolId c)
            (originalSessionReplicationRole c)) w.
Proof. intros H. unfold onResult. by rewrite H. Qed.

(** An encoded row is appended; at the watermark a copy stream is opened
    on the buffer and the cursor is paused. *)
Lemma onResult_success c row csv w :
  parse row (_delimiter (conversion c)) = inr csv →
  let w' := exec (onResult c row) w in
  array (dataBuffer c) w' = array (dataBuffer c) w ++ [csv] ∧
  pg_state w' = pg_state w ∧ targetRows w' = targetRows w ∧
  cursor w' = cursor w ∧ nextRef w' = nextRef w ∧
  if (_streamsHighWaterMark (conversion c)
        <=? Z.of_nat (length (array (dataBuffer c) w ++ [csv])))%Z
  then
    trace w' =
      trace w ++ [Emit "chunkBuffered"; CopyFrom (sqlCopy c); MysqlPause] ∧
    paused w' = true ∧
    copyStreams w' =
      copyStreams w ++
      [{| cs_conv := conversion c; cs_sqlCopy := sqlCopy c;
          cs_sql := sqlRetrieve c; cs_tableName := tableName c;
          cs_rowsCnt := rowsCnt c; cs_dataPoolId := dataPoolId c;
          cs_originalSessionReplicationRole :=
            originalSessionReplicationRole c;
          cs_dataBuffer := dataBuffer c; cs_piped := Some (dataBuffer c);
          cs_status := Open |}]
  else
    trace w' = trace w ∧ paused w' = paused w ∧
    copyStreams w' = copyStreams w.
Proof.
  intros H. unfold onResult. rewrite H. monad. unfold array. cbn.
  rewrite !lookup_insert_eq. cbn.
  destruct (_ <=? _)%Z; cbn; rewrite ?lookup_insert_eq, ?app_cons_assoc;
    repeat split; try done.
  by rewrite alter_snoc.
Qed.

(** *** Steps on which nothing fails *)

Lemma step_result_failure c row e w :
  cursor w = Streaming → paused w = false →
  parse row (_delimiter (conversion c)) = inl e →
  step c (Result row) w =
    Some (exec (processDataError (conversion c) e SqlEmpty SqlEmpty
                  (originalTableName c) (dataPoolId c)
                  (originalSessionReplicationRole c)) w).
Proof.
  intros Hc Hp He. cbn. rewrite Hc, Hp. by rewrite (onResult_failure _ _ e).
Qed.

Lemma success_step c ev w w' :
  success_event c ev = true → step c ev w = Some w' →
  pg_state w' = pg_state w ∧
  ∃ t, trace w' = trace w ++ t ∧ forallb quiet t = true.
Proof.
  destruct ev as [row| | |i|]; cbn; try done.
  - destruct (parse row _) as [|csv] eqn:Hparse; [done|]. intros _.
    destruct (cursor w), (paused w); try done. intros [= <-].
    destruct (onResult_success c row csv w Hparse)
      as (_ & Hpg & _ & _ & _ & Hif).
    split; [done|].
    destruct (_ <=? _)%Z.
    + destruct Hif as (-> & _). by eexists.
    + destruct Hif as (-> & _). exists []. by rewrite app_nil_r.
  - intros _. destruct (cursor w); intros [= <-]; (split; [done|]);
      by eexists.
  - intros _. unfold open_stream. destruct (open_in _ _); [|done].
    intros [= <-]. monad. cbn. rewrite !app_cons_assoc.
    split; [done|]. by eexists.
Qed.

Lemma success_run c evs : ∀ w w',
  forallb (success_event c) evs = true → run c evs w = Some w' →
  pg_state w' = pg_state w ∧
  ∃ t, trace w' = trace w ++ t ∧ forallb quiet t = true.
Proof.
  induction evs as [|ev evs IH]; intros w w'; cbn.
  - intros _ [= <-]. split; [done|]. exists []. by rewrite app_nil_r.
  - intros [Hev Hevs]%andb_true_iff.
    destruct (step c ev w) as [w1|] eqn:Hstep; [|done]. intros Hrun.
    destruct (success_step _ _ _ _ Hev Hstep) as (Hpg1 & t1 & Ht1 & Hq1).
    destruct (IH _ _ Hevs Hrun) as (Hpg & t & Ht & Hq).
    split; [congruence|]. exists (t1 ++ t).
    rewrite Ht, Ht1, app_assoc. split; [done|].
    rewrite forallb_app. by rewrite Hq1, Hq.
Qed.

(** *** The message handler *)

Lemma onMessage_normal signal w0 c w1 :
  onMessage signal w0 = (Some c, w1) →
  dataTransferred (config signal) (_id (chunk signal))
    (dataPool w0) (targetRows w0) = false ∧
  conversion c = config signal ∧
  tableName c = _tableName (chunk signal) ∧
  dataPoolId c = _id (chunk signal) ∧
  (shouldMigrateOnlyData (config signal) = false →
   originalSessionReplicationRole c = None) ∧
  copyStreams w1 = copyStreams w0 ∧ targetRows w1 = targetRows w0 ∧
  dataPool w1 = dataPool w0 ∧ released w1 = released w0 ∧
  processSendDefined w1 = processSendDefined w0 ∧
  paused w1 = false ∧ cursor w1 = Streaming ∧
  dataBuffer c < nextRef w1 ∧
  ∃ t, trace w1 = trace w0 ++ t ∧ forallb (λ e, negb (is_cleanup e)) t = true.
Proof.
  unfold onMessage, populateTableWorker. monad. cbn.
  destruct (dataTransferred _ _ _ _); cbn; [by faults|].
  destruct (shouldMigrateOnlyData _); faults; intros [= <- <-]; cbn;
    rewrite ?app_cons_assoc; repeat split; try done; try lia; by eexists.
Qed.

(** With the data-only mode and statements that succeed, the worker holds
    the mode of the session and the session is switched to [replica]. *)
Lemma onMessage_data_only signal w0 c w1 :
  onMessage signal w0 = (Some c, w1) →
  shouldMigrateOnlyData (config signal) = true → pgFaults w0 = [] →
  originalSessionReplicationRole c = Some (session_replication_role w0) ∧
  session_replication_role w1 = "replica" ∧ pgFaults w1 = [].
Proof.
  unfold onMessage, populateTableWorker. monad. cbn.
  intros H Honly Hf. revert H. rewrite Honly.
  destruct (dataTransferred _ _ _ _); cbn; repeat (rewrite Hf; cbn); [done|].
  by intros [= <- <-].
Qed.

(** *** Batches are sequential *)

Lemma sequential_frame c w w' :
  copyStreams w' = copyStreams w → paused w' = paused w →
  sequential c w → sequential c w'.
Proof.
  unfold sequential, open_stream. intros -> ->. done.
Qed.

Lemma step_sequential c ev w w' :
  sequential c w → step c ev w = Some w' → sequential c w'.
Proof.
  intros Hseq. pose proof Hseq as (Hof & Huniq & Hnone).
  destruct ev as [row|e| |i|i e]; cbn.
  - destruct (cursor w); try done. destruct (paused w) eqn:Hp; [done|].
    intros [= <-]. destruct (parse row (_delimiter (conversion c)))
      as [e|csv] eqn:Hparse.
    + rewrite (onResult_failure _ _ e) by done.
      pose proof (processDataError_frame (conversion c) e SqlEmpty SqlEmpty
        (originalTableName c) (dataPoolId c)
        (originalSessionReplicationRole c) w) as [= _ _ _ Hcs Hpa _ _].
      apply (sequential_frame c w); [done| |done]. congruence.
    + destruct (onResult_success c row csv w Hparse)
        as (_ & _ & _ & _ & _ & Hif).
      destruct (_ <=? _)%Z.
      * destruct Hif as (_ & Hpa & Hcs). unfold sequential, open_stream.
        rewrite Hcs, Hpa. split; [|split; [|done]].
        -- apply Forall_app. split; [done|]. by repeat constructor.
        -- assert (∀ j, open_in (copyStreams w) j = None) as Hno
             by by apply Hnone.
           intros i j Hi Hj. apply (open_in_snoc _ _ _ Hno) in Hi, Hj.
           congruence.
      * destruct Hif as (_ & Hpa & Hcs).
        apply (sequential_frame c w); [done| |done]. congruence.
  - destruct (cursor w); try done. intros [= <-].
    pose proof (processDataError_frame (conversion c) e (sqlRetrieve c)
      (sqlCopy c) (tableName c) (dataPoolId c)
      (originalSessionReplicationRole c) (with_cursor Failed w))
      as [= _ _ _ Hcs Hpa _ _].
    by apply (sequential_frame c w).
  - destruct (cursor w); intros [= <-]; by apply (sequential_frame c w).
  - unfold open_stream. destruct (open_in (copyStreams w) i) as [cs|] eqn:Hopen;
      [|done].
    intros [= <-]. monad. unfold sequential, open_stream. cbn.
    assert (∀ j, open_in
      (alter (rebind_dataBuffer (nextRef w)) i
         (alter (set_status Finished) i (copyStreams w))) j = None) as Hno.
    { intros j. destruct (decide (i = j)) as [<-|Hne].
      - destruct (open_in (alter (rebind_dataBuffer (nextRef w)) i _) i)
          as [cs'|] eqn:E; [|done].
        assert (is_Some (open_in (alter (set_status Finished) i
          (copyStreams w)) i)) as [? Hbad].
        { apply (proj1 (open_in_alter_same (rebind_dataBuffer (nextRef w))
                          _ i i (λ _, eq_refl))).
          by rewrite E. }
        by rewrite open_in_alter_closed in Hbad.
      - rewrite !open_in_alter_ne by done.
        destruct (open_in (copyStreams w) j) eqn:E; [|done].
        destruct Hne. apply Huniq; unfold open_stream; by eauto. }
    split; [|split].
    + apply Forall_alter; [|done]. by apply Forall_alter.
    + intros j k [? Hj]. by rewrite Hno in Hj.
    + done.
  - unfold open_stream. destruct (open_in (copyStreams w) i) as [cs|] eqn:Hopen;
      [|done].
    intros [= <-]. unfold onCopyError.
    set (w1 := exec (set_stream i (set_status Errored)) w).
    pose proof (processDataError_frame (cs_conv cs) e (cs_sql cs)
      (cs_sqlCopy cs) (cs_tableName cs) (cs_dataPoolId cs)
      (cs_originalSessionReplicationRole cs) w1) as [= _ _ _ Hcs Hpa _ _].
    assert (∀ j, open_in (alter (set_status Errored) i (copyStreams w)) j
                 = None) as Hno.
    { intros j. destruct (decide (i = j)) as [<-|Hne].
      - by apply open_in_alter_closed.
      - rewrite open_in_alter_ne by done.
        destruct (open_in (copyStreams w) j) eqn:E; [|done].
        destruct Hne. apply Huniq; unfold open_stream; by eauto. }
    unfold sequential, open_stream.
    change (exec (set_stream i (set_status Errored);; _) w) with
      (exec (processDataError (cs_conv cs) e (cs_sql cs)
        (cs_sqlCopy cs) (cs_tableName cs) (cs_dataPoolId cs)
        (cs_originalSessionReplicationRole cs)) w1).
    rewrite Hcs, Hpa. subst w1. cbn.
    split; [|split].
    + by apply Forall_alter.
    + intros j k [? Hj]. by rewrite Hno in Hj.
    + done.
Qed.

Lemma run_sequential c evs : ∀ w w',
  sequential c w → run c evs w = Some w' → sequential c w'.
Proof.
  induction evs as [|ev evs IH]; intros w w' Hseq; cbn.
  - by intros [= <-].
  - destruct (step c ev w) as [w1|] eqn:Hstep; [|done].
    apply IH. by eapply step_sequential.
Qed.

Lemma reachable_sequential c w : reachable c w → sequential c w.
Proof.
  intros (signal & w0 & w1 & evs & Hnil & Hmsg & Hrun).
  apply (run_sequential c evs w1); [|done].
  destruct (onMessage_normal _ _ _ _ Hmsg)
    as (_ & _ & _ & _ & _ & Hcs & _).
  unfold sequential, open_stream. rewrite Hcs, Hnil.
  split; [constructor|]. split; [|done]. by intros i j [? ?].
Qed.

(** *** After loading has stopped *)



(** ** The claims *)

(** C4: on the success path of a chunk (every row encodes, every copy
    stream finishes, the cursor ends) no DELETE is issued on the data pool
    and no message is sent to the master, from the message that starts the
    chunk to the end of the run, and the data pool is left as it was; every
    failing event, on the contrary, issues the DELETE once and sends one
    message where [process.send] is defined. *)
Theorem success_path_no_ledger_delete_no_outcome signal w0 c w1 evs w :
  onMessage signal w0 = (Some c, w1) →
  forallb (success_event c) evs = true →
  run c evs w1 = Some w →
  (dataPool w = dataPool w0 ∧
   ∃ t, trace w = trace w0 ++ t ∧
        count is_ledger_delete t = 0 ∧ count is_send t = 0) ∧
  (∀ ev w2 w3,
     success_event c ev = false → step c ev w2 = Some w3 →
     count is_ledger_delete (trace w3) =
       S (count is_ledger_delete (trace w2)) ∧
     count is_send (trace w3) =
       (if processSendDefined w2 then 1 else 0) + count is_send (trace w2)).
Proof.
  intros Hmsg Hevs Hrun. split.
  - destruct (onMessage_normal _ _ _ _ Hmsg)
      as (_ & _ & _ & _ & _ & _ & _ & Hpool & _ & _ & _ & _ & _ &
          t1 & Ht1 & Hq1).
    destruct (success_run _ _ _ _ Hevs Hrun)
      as ([= _ Hpool' _ _] & t & Ht & Hq).
    split; [congruence|]. exists (t1 ++ t).
    rewrite Ht, Ht1, app_assoc. split; [done|]. rewrite !count_app.
    rewrite (count_zero is_ledger_delete _ t1 Hq1),
      (count_zero is_send _ t1 Hq1), (count_zero is_ledger_delete _ t Hq),
      (count_zero is_send _ t Hq); [done| | | |];
      intros e; unfold quiet, is_cleanup;
      destruct e as [| | | |[]| | | | | | | | |]; done.
  - intros ev w2 w3 Hev. destruct ev as [row|e| |i|i e]; cbn in *; try done.
    + destruct (parse row _) as [e|] eqn:Hparse; [|done].
      destruct (cursor w2), (paused w2); try done. intros [= <-].
      rewrite (onResult_failure _ _ e) by done.
      by destruct (processDataError_counts (conversion c) e SqlEmpty SqlEmpty
        (originalTableName c) (dataPoolId c)
        (originalSessionReplicationRole c) w2) as (? & _ & ? & _).
    + destruct (cursor w2); try done. intros [= <-].
      by destruct (processDataError_counts (conversion c) e (sqlRetrieve c)
        (sqlCopy c) (tableName c) (dataPoolId c)
        (originalSessionReplicationRole c) (with_cursor Failed w2))
        as (? & _ & ? & _).
    + destruct (open_stream i w2) as [cs|]; [|done]. intros [= <-].
      by destruct (processDataError_counts (cs_conv cs) e (cs_sql cs)
        (cs_sqlCopy cs) (cs_tableName cs) (cs_dataPoolId cs)
        (cs_originalSessionReplicationRole cs)
        (exec (set_stream i (set_status Errored)) w2)) as (? & _ & ? & _).
Qed.


(** The ['result'] handler on a row whose encoding throws: the row is not put
    into the buffer and the failure path runs for it: the error is recorded,
    a rejected-data entry is written to the log of the (original) table,
    the DELETE is issued on the data pool, the mode is restored when one
    was captured and the DELETE did not throw, the client is released and
    zero rows are reported for the table.  The cursor is neither paused
    nor ended by this: it goes on delivering rows. *)
Theorem encoding_failure_runs_cleanup c w row e :
  cursor w = Streaming → paused w = false →
  parse row (_delimiter (conversion c)) = inl e →
  processSendDefined w = true →
  ∃ w',
    step c (Result row) w = Some w' ∧
    (∃ mid,
       trace w' =
         trace w ++
         [GenerateError (tab +:+ "--[populateTableWorker] " +:+ e) SqlEmpty;
          Log (tab +:+ "--[populateTableWorker] Error loading table data:"
                   +:+ newline +:+ sql_text SqlEmpty +:+ newline)
              (Some (path_join (_logsDirPath (conversion c))
                       (originalTableName c +:+ ".log")));
          ClientQuery
            (DeleteFromDataPool (getDataPoolTableName (conversion c))
               (dataPoolId c))] ++
         mid ++
         [ReleaseDbClient;
          ProcessSend {| mm_tableName := originalTableName c;
                         mm_rowsInserted := 0 |}] ∧
       forallb is_restore_step mid = true ∧
       (pgFaults w = [] →
        mid = restore_effects (originalSessionReplicationRole c))) ∧
    released w' = S (released w) ∧
    (pgFaults w = [] →
     dataPool w' = dataPool w ∖ {[ dataPoolId c ]} ∧
     session_replication_role w' =
       restored_role (originalSessionReplicationRole c)
         (session_replication_role w)) ∧
    arrays w' = arrays w ∧ targetRows w' = targetRows w ∧
    copyStreams w' = copyStreams w ∧
    cursor w' = Streaming ∧ paused w' = false.
Proof.
  intros Hc Hp He Hsend.
  rewrite (step_result_failure c row e w Hc Hp He).
  eexists. split; [reflexivity|].
  pose proof (processDataError_frame (conversion c) e SqlEmpty SqlEmpty
    (originalTableName c) (dataPoolId c)
    (originalSessionReplicationRole c) w) as [= Ht Ha _ Hcs Hpa Hcu _].
  split; [|split; [|split]].
  - destruct (processDataError_trace (conversion c) e SqlEmpty SqlEmpty
      (originalTableName c) (dataPoolId c)
      (originalSessionReplicationRole c) w) as (mid & Hmid & Hq & Hnf).
    exists mid. by rewrite Hsend in Hmid.
  - by rewrite processDataError_released.
  - intros Hf.
    by destruct (processDataError_pg (conversion c) e SqlEmpty SqlEmpty
      (originalTableName c) (dataPoolId c)
      (originalSessionReplicationRole c) w Hf) as (? & ? & _).
  - rewrite Ha, Ht, Hcs, Hcu, Hpa. done.
Qed.

(** C10: an encoding failure leaves the cursor streaming and not paused.
    The next row is still delivered: when it encodes it is appended to the
    buffer, and when it fails too the failure path runs a second time for
    the same chunk (two DELETEs on the data pool, two releases of the
    client, two messages of zero rows). *)
Theorem encoding_failure_does_not_stop_cursor c w row e :
  cursor w = Streaming → paused w = false →
  parse row (_delimiter (conversion c)) = inl e →
  ∃ w',
    step c (Result row) w = Some w' ∧
    cursor w' = Streaming ∧ paused w' = false ∧
    (∀ row2 csv,
       parse row2 (_delimiter (conversion c)) = inr csv →
       ∃ w'',
         step c (Result row2) w' = Some w'' ∧
         array (dataBuffer c) w'' = array (dataBuffer c) w ++ [csv]) ∧
    (∀ row2 e2,
       parse row2 (_delimiter (conversion c)) = inl e2 →
       ∃ w'',
         step c (Result row2) w' = Some w'' ∧
         count is_ledger_delete (trace w'') =
           2 + count is_ledger_delete (trace w) ∧
         count is_release (trace w'') = 2 + count is_release (trace w) ∧
         released w'' = 2 + released w ∧
         count is_send (trace w'') =
           (if processSendDefined w then 2 else 0) + count is_send (trace w)).
Proof.
  intros Hc Hp He.
  rewrite (step_result_failure c row e w Hc Hp He).
  eexists. split; [reflexivity|].
  set (w' := exec _ w).
  pose proof (processDataError_frame (conversion c) e SqlEmpty SqlEmpty
    (originalTableName c) (dataPoolId c)
    (originalSessionReplicationRole c) w) as [= _ Ha _ _ Hpa Hcu Hsd].
  fold w' in Ha, Hpa, Hcu, Hsd.
  assert (cursor w' = Streaming) as Hc' by congruence.
  assert (paused w' = false) as Hp' by congruence.
  split; [done|]. split; [done|]. split.
  - intros row2 csv H2. cbn. rewrite Hc', Hp'. eexists. split; [reflexivity|].
    destruct (onResult_success c row2 csv w' H2) as (-> & _).
    unfold array. by rewrite Ha.
  - intros row2 e2 H2.
    rewrite (step_result_failure c row2 e2 w' Hc' Hp' H2).
    eexists. split; [reflexivity|].
    destruct (processDataError_counts (conversion c) e2 SqlEmpty SqlEmpty
      (originalTableName c) (dataPoolId c)
      (originalSessionReplicationRole c) w') as (-> & -> & -> & _).
    rewrite processDataError_released. subst w'.
    destruct (processDataError_counts (conversion c) e SqlEmpty SqlEmpty
      (originalTableName c) (dataPoolId c)
      (originalSessionReplicationRole c) w) as (-> & -> & -> & _).
    rewrite processDataError_released, Hsd.
    by destruct (processSendDefined w).
Qed.

(** C3 (amended): when the copy stream of a batch fails, the arrays (the
    batch buffer among them) are left as they are, no signal is emitted
    and the cursor stays as it was; when it finishes, [chunkLoaded] is
    emitted, which resumes the cursor. *)
Theorem copy_stream_end_signals c w i cs :
  open_stream i w = Some cs →
  (∀ e, ∃ w',
     step c (CopyError i e) w = Some w' ∧
     arrays w' = arrays w ∧ paused w' = paused w ∧
     count is_emit (trace w') = count is_emit (trace w)) ∧
  (∃ w',
     step c (CopyFinish i) w = Some w' ∧
     trace w' =
       trace w ++ [Emit "chunkLoaded"; MysqlResume; CopyStreamDestroy i] ∧
     paused w' = false).
Proof.
  intros Hopen. split.
  - intros e. cbn. rewrite Hopen. eexists. split; [reflexivity|].
    set (w1 := exec (set_stream i (set_status Errored)) w).
    change (exec (set_stream i (set_status Errored);; onCopyError cs e) w) with
      (exec (processDataError (cs_conv cs) e (cs_sql cs)
        (cs_sqlCopy cs) (cs_tableName cs) (cs_dataPoolId cs)
        (cs_originalSessionReplicationRole cs)) w1).
    pose proof (processDataError_frame (cs_conv cs) e (cs_sql cs)
      (cs_sqlCopy cs) (cs_tableName cs) (cs_dataPoolId cs)
      (cs_originalSessionReplicationRole cs) w1) as [= _ Ha _ _ Hpa _ _].
    destruct (processDataError_counts (cs_conv cs) e (cs_sql cs)
      (cs_sqlCopy cs) (cs_tableName cs) (cs_dataPoolId cs)
      (cs_originalSessionReplicationRole cs) w1) as (_ & _ & _ & _ & Hem).
    by rewrite Ha, Hpa, Hem.
  - cbn. rewrite Hopen. eexists. split; [reflexivity|].
    monad. cbn. by rewrite !app_cons_assoc.
Qed.

(** *** The recovery path *)

Lemma onMessage_recovery signal w :
  dataTransferred (config signal) (_id (chunk signal))
    (dataPool w) (targetRows w) = true →
  (onMessage signal w).1 = None ∧
  trace (exec (onMessage signal) w) =
    trace w ++
    [Log (loading_message (config signal) (chunk signal)) None;
     GetPgClient;
     ClientQuery (DeleteFromDataPool (getDataPoolTableName (config signal))
                    (_id (chunk signal)))] ++
    match pgFaults w with
    | Some e :: _ =>
        [GenerateError (tab +:+ "--[DataLoader::deleteChunk] " +:+ e)
           (DeleteFromDataPool (getDataPoolTableName (config signal))
              (_id (chunk signal)))]
    | _ => []
    end ++ [ReleaseDbClient] ∧
  dataPool (exec (onMessage signal) w) =
    match pgFaults w with
    | Some _ :: _ => dataPool w
    | _ => dataPool w ∖ {[ _id (chunk signal) ]}
    end ∧
  pgFaults (exec (onMessage signal) w) = tail (pgFaults w) ∧
  released (exec (onMessage signal) w) = S (released w) ∧
  session_replication_role (exec (onMessage signal) w) =
    session_replication_role w ∧
  frame (exec (onMessage signal) w) = frame w.
Proof.
  intros H. unfold onMessage. monad. cbn. rewrite H. cbn.
  faults; rewrite ?app_cons_assoc; by repeat split.
Qed.

(** C8: when the consistency check answers that the chunk was already
    applied, the handler starts no worker: it opens no source cursor and no
    copy stream and leaves the target table as it is; it issues the DELETE
    of the chunk on the data pool (which removes the entry unless the
    statement throws, and then the error is recorded) and releases the
    client, once.  Handling the message a second time again only issues
    the DELETE: the target table is still the same and nothing is
    transferred. *)
Theorem recovery_path_only_cleans_ledger signal w0 :
  dataTransferred (config signal) (_id (chunk signal))
    (dataPool w0) (targetRows w0) = true →
  let w1 := exec (onMessage signal) w0 in
  (onMessage signal w0).1 = None ∧
  trace w1 =
    trace w0 ++
    [Log (loading_message (config signal) (chunk signal)) None;
     GetPgClient;
     ClientQuery (DeleteFromDataPool (getDataPoolTableName (config signal))
                    (_id (chunk signal)))] ++
    match pgFaults w0 with
    | Some e :: _ =>
        [GenerateError (tab +:+ "--[DataLoader::deleteChunk] " +:+ e)
           (DeleteFromDataPool (getDataPoolTableName (config signal))
              (_id (chunk signal)))]
    | _ => []
    end ++ [ReleaseDbClient] ∧
  dataPool w1 =
    match pgFaults w0 with
    | Some _ :: _ => dataPool w0
    | _ => dataPool w0 ∖ {[ _id (chunk signal) ]}
    end ∧
  released w1 = S (released w0) ∧
  session_replication_role w1 = session_replication_role w0 ∧
  frame w1 = frame w0 ∧
  (dataTransferred (config signal) (_id (chunk signal))
     (dataPool w1) (targetRows w1) = true →
   let w2 := exec (onMessage signal) w1 in
   (onMessage signal w1).1 = None ∧
   frame w2 = frame w0 ∧
   count is_transfer (trace w2) = count is_transfer (trace w0) ∧
   released w2 = 2 + released w0 ∧
   dataPool w2 ⊆ dataPool w0 ∧
   (pgFaults w0 = [] → dataPool w2 = dataPool w0 ∖ {[ _id (chunk signal) ]})).
Proof.
  intros H w1.
  destruct (onMessage_recovery signal w0 H)
    as (Hnone & Htr & Hpool & Hfaults & Hrel & Hrole & Hframe).
  fold w1 in Htr, Hpool, Hfaults, Hrel, Hrole, Hframe.
  repeat (split; [done|]).
  intros H1 w2.
  destruct (onMessage_recovery signal w1 H1)
    as (Hnone2 & Htr2 & Hpool2 & _ & Hrel2 & _ & Hframe2).
  fold w2 in Htr2, Hpool2, Hrel2, Hframe2.
  split; [done|]. split; [congruence|]. split; [|split; [lia|split]].
  - rewrite Htr2, Htr, !count_app.
    destruct (pgFaults w0) as [|[?|] ?], (pgFaults w1) as [|[?|] ?]; cbn; lia.
  - rewrite Hpool2, Hpool.
    destruct (pgFaults w0) as [|[?|] ?], (pgFaults w1) as [|[?|] ?];
      repeat apply subseteq_difference_l; done.
  - intros Hf. rewrite Hpool2, Hpool, Hfaults, Hf. cbn.
    by rewrite difference_difference_l_L, (idemp_L (∪)).
Qed.

(** C9 (amended): [disableTriggers] throws nothing.  When the SHOW throws
    it records the error and returns [origin]; when the SHOW succeeds it
    returns the mode the session was in, also when the SET that follows
    throws, which is recorded and leaves the session in its mode.
    [enableTriggers] issues its SET and records the error when it
    throws. *)
Theorem integrity_control_fail_open w :
  (disableTriggers w).1 =
    match pgFaults w with
    | Some _ :: _ => "origin"
    | _ => session_replication_role w
    end ∧
  trace (exec disableTriggers w) =
    trace w ++
    match pgFaults w with
    | Some e :: _ =>
        [ClientQuery ShowSessionReplicationRole;
         GenerateError (tab +:+ "--[DataLoader::disableTriggers] " +:+ e)
           ShowSessionReplicationRole]
    | None :: Some e :: _ =>
        [ClientQuery ShowSessionReplicationRole;
         ClientQuery (SetSessionReplicationRole "replica");
         GenerateError (tab +:+ "--[DataLoader::disableTriggers] " +:+ e)
           (SetSessionReplicationRole "replica")]
    | _ =>
        [ClientQuery ShowSessionReplicationRole;
         ClientQuery (SetSessionReplicationRole "replica")]
    end ∧
  session_replication_role (exec disableTriggers w) =
    match pgFaults w with
    | Some _ :: _ | None :: Some _ :: _ => session_replication_role w
    | _ => "replica"
    end ∧
  ∀ role,
    trace (exec (enableTriggers role) w) =
      trace w ++
      ClientQuery (SetSessionReplicationRole role) ::
      match pgFaults w with
      | Some e :: _ =>
          [GenerateError (tab +:+ "--[DataLoader::enableTriggers] " +:+ e)
             (SetSessionReplicationRole role)]
      | _ => []
      end ∧
    session_replication_role (exec (enableTriggers role) w) =
      match pgFaults w with
      | Some _ :: _ => session_replication_role w
      | _ => role
      end.
Proof.
  repeat split; monad; faults; by rewrite ?app_cons_assoc.
Qed.

(** *** The success path and the PostgreSQL client *)

(** C1: on the success path of a data-only chunk whose SHOW and SET
    succeed, the worker holds the mode the session had before the chunk,
    the session is still in [replica] when the run ends, and no statement
    at all is issued after the start: [enableTriggers] is not called, so
    the mode of the session is not the one it had before the chunk unless
    that was [replica]. *)
Theorem success_path_leaves_replica_mode signal w0 c w1 evs w :
  onMessage signal w0 = (Some c, w1) →
  shouldMigrateOnlyData (config signal) = true → pgFaults w0 = [] →
  forallb (success_event c) evs = true → run c evs w1 = Some w →
  originalSessionReplicationRole c = Some (session_replication_role w0) ∧
  session_replication_role w = "replica" ∧
  ∃ t, trace w = trace w1 ++ t ∧ count is_query t = 0.
Proof.
  intros Hmsg Honly Hf Hevs Hrun.
  destruct (onMessage_data_only _ _ _ _ Hmsg Honly Hf)
    as (Hrole & Hrep & _).
  destruct (success_run _ _ _ _ Hevs Hrun) as ([= Hr _ _ _] & t & Ht & Hq).
  split; [done|]. split; [congruence|]. exists t. split; [done|].
  apply (count_zero _ _ _ Hq). intros e. unfold quiet.
  by destruct e as [| | | |[]| | | | | | | | |].
Qed.

(** C2: on the success path the client acquired at the start is never
    released: from the message to the end of the run the release count is
    what it was and the trace holds no release. *)
Theorem success_path_never_releases signal w0 c w1 evs w :
  onMessage signal w0 = (Some c, w1) →
  forallb (success_event c) evs = true → run c evs w1 = Some w →
  released w = released w0 ∧
  ∃ t, trace w = trace w0 ++ t ∧ count is_release t = 0.
Proof.
  intros Hmsg Hevs Hrun.
  destruct (onMessage_normal _ _ _ _ Hmsg)
    as (_ & _ & _ & _ & _ & _ & _ & _ & Hrel & _ & _ & _ & _ &
        t1 & Ht1 & Hq1).
  destruct (success_run _ _ _ _ Hevs Hrun)
    as ([= _ _ _ Hrel'] & t & Ht & Hq).
  split; [congruence|]. exists (t1 ++ t).
  rewrite Ht, Ht1, app_assoc. split; [done|]. rewrite count_app.
  rewrite (count_zero is_release _ t1 Hq1), (count_zero is_release _ t Hq);
    [done| |]; intros e; unfold quiet, is_cleanup;
    destruct e as [| | | |[]| | | | | | | | |]; done.
Qed.

(** When a copy stream finishes, its handler binds the parameter
    [dataBuffer] of that stream to a new array; every other array, the one
    of [populateTableWorker] among them, keeps its rows. *)
Lemma finish_rebinds_parameter c w i cs :
  open_stream i w = Some cs →
  ∃ w',
    step c (CopyFinish i) w = Some w' ∧
    cs_dataBuffer <$> copyStreams w' !! i = Some (nextRef w) ∧
    targetRows w' = targetRows w ++ piped_rows cs w ∧
    ∀ r, r ≠ nextRef w → array r w' = array r w.
Proof.
  intros Hopen. cbn. rewrite Hopen. eexists. split; [reflexivity|].
  apply open_in_Some in Hopen as [Hlook _].
  monad. cbn. rewrite !list_lookup_alter_eq, Hlook. cbn.
  repeat split. intros r Hr. unfold array. cbn.
  by rewrite lookup_insert_ne.
Qed.

(** The buffer of the worker is an array of the store, and arrays are
    only ever added. *)
Lemma step_nextRef c ev w w' :
  step c ev w = Some w' → (nextRef w ≤ nextRef w')%nat.
Proof.
  destruct ev as [row|e| |i|i e]; cbn.
  - destruct (cursor w), (paused w); try done. intros [= <-].
    destruct (parse row (_delimiter (conversion c))) as [e|csv] eqn:Hparse.
    + rewrite (onResult_failure _ _ e) by done.
      by pose proof (processDataError_frame (conversion c) e SqlEmpty SqlEmpty
        (originalTableName c) (dataPoolId c)
        (originalSessionReplicationRole c) w) as [= _ _ -> _ _ _ _].
    + by destruct (onResult_success c row csv w Hparse)
        as (_ & _ & _ & _ & -> & _).
  - destruct (cursor w); try done. intros [= <-]. unfold onQueryError.
    by pose proof (processDataError_frame (conversion c) e (sqlRetrieve c)
      (sqlCopy c) (tableName c) (dataPoolId c)
      (originalSessionReplicationRole c) (with_cursor Failed w))
      as [= _ _ -> _ _ _ _].
  - by destruct (cursor w); intros [= <-].
  - destruct (open_stream i w); [|done]. intros [= <-]. monad. cbn. lia.
  - destruct (open_stream i w) as [cs|]; [|done]. intros [= <-].
    change (exec (set_stream i (set_status Errored);; onCopyError cs e) w) with
      (exec (processDataError (cs_conv cs) e (cs_sql cs)
        (cs_sqlCopy cs) (cs_tableName cs) (cs_dataPoolId cs)
        (cs_originalSessionReplicationRole cs))
        (exec (set_stream i (set_status Errored)) w)).
    by pose proof (processDataError_frame (cs_conv cs) e (cs_sql cs)
      (cs_sqlCopy cs) (cs_tableName cs) (cs_dataPoolId cs)
      (cs_originalSessionReplicationRole cs)
      (exec (set_stream i (set_status Errored)) w)) as [= _ _ -> _ _ _ _].
Qed.

Lemma reachable_buffer c w : reachable c w → dataBuffer c < nextRef w.
Proof.
  intros (signal & w0 & w1 & evs & _ & Hmsg & Hrun).
  destruct (onMessage_normal _ _ _ _ Hmsg)
    as (_ & _ & _ & _ & _ & _ & _ & _ & _ & _ & _ & _ & Hlt & _).
  clear Hmsg. revert w1 Hlt Hrun.
  induction evs as [|ev evs IH]; intros w1 Hlt; cbn.
  - by intros [= <-].
  - destruct (step c ev w1) as [w2|] eqn:Hstep; [|done].
    apply IH. apply step_nextRef in Hstep. lia.
Qed.

(** A finished batch stays in the buffer of the worker. *)
Lemma finish_keeps_buffer c w i cs :
  reachable c w → open_stream i w = Some cs →
  ∃ w',
    step c (CopyFinish i) w = Some w' ∧
    array (dataBuffer c) w' = array (dataBuffer c) w.
Proof.
  intros Hreach Hopen.
  destruct (finish_rebinds_parameter c w i cs Hopen)
    as (w' & Hstep & _ & _ & H).
  exists w'. split; [done|]. apply H.
  apply reachable_buffer in Hreach. lia.
Qed.

End Steps.

(** ** The example chunk *)

(** The success path of a data-only chunk, session in [origin], watermark
    1, one row: the session ends in [replica]. *)
Lemma success_path_leaves_replica_mode_witness :
  onMessage example_getTableName (λ _ _ _ _, false) (example_signal 1 true)
    (example_world "origin" []) =
    (Some (example_worker 1 true (Some "origin")),
     example_started 1 true "origin" []) ∧
  shouldMigrateOnlyData (config (example_signal 1 true)) = true ∧
  pgFaults (example_world "origin" []) = [] ∧
  forallb (success_event example_parse
             (example_worker 1 true (Some "origin"))) one_batch = true ∧
  run example_parse (example_worker 1 true (Some "origin")) one_batch
    (example_started 1 true "origin" []) =
    Some (example_after (example_worker 1 true (Some "origin")) one_batch
            (example_started 1 true "origin" [])) ∧
  originalSessionReplicationRole (example_worker 1 true (Some "origin")) =
    Some "origin" ∧
  session_replication_role
    (example_after (example_worker 1 true (Some "origin")) one_batch
       (example_started 1 true "origin" [])) = "replica".
Proof.
  assert (onMessage example_getTableName (λ _ _ _ _, false)
            (example_signal 1 true) (example_world "origin" []) =
          (Some (example_worker 1 true (Some "origin")),
           example_started 1 true "origin" [])) as H1
    by (vm_compute; reflexivity).
  assert (shouldMigrateOnlyData (config (example_signal 1 true)) = true)
    as H2 by reflexivity.
  assert (pgFaults (example_world "origin" []) = []) as H3 by reflexivity.
  assert (forallb (success_event example_parse
            (example_worker 1 true (Some "origin"))) one_batch = true)
    as H4 by reflexivity.
  assert (run example_parse (example_worker 1 true (Some "origin")) one_batch
            (example_started 1 true "origin" []) =
          Some (example_after (example_worker 1 true (Some "origin"))
                  one_batch (example_started 1 true "origin" [])))
    as H5 by (vm_compute; reflexivity).
  destruct (success_path_leaves_replica_mode example_parse
              example_getTableName (λ _ _ _ _, false) _ _ _ _ _ _
              H1 H2 H3 H4 H5) as (Hrole & Hmode & _).
  exact (conj H1 (conj H2 (conj H3 (conj H4 (conj H5 (conj Hrole Hmode)))))).
Defined.

(** The same run: the client is released zero times. *)
Lemma success_path_never_releases_witness :
  onMessage example_getTableName (λ _ _ _ _, false) (example_signal 1 true)
    (example_world "origin" []) =
    (Some (example_worker 1 true (Some "origin")),
     example_started 1 true "origin" []) ∧
  forallb (success_event example_parse
             (example_worker 1 true (Some "origin"))) one_batch = true ∧
  run example_parse (example_worker 1 true (Some "origin")) one_batch
    (example_started 1 true "origin" []) =
    Some (example_after (example_worker 1 true (Some "origin")) one_batch
            (example_started 1 true "origin" [])) ∧
  released
    (example_after (example_worker 1 true (Some "origin")) one_batch
       (example_started 1 true "origin" [])) = 0.
Proof.
  assert (onMessage example_getTableName (λ _ _ _ _, false)
            (example_signal 1 true) (example_world "origin" []) =
          (Some (example_worker 1 true (Some "origin")),
           example_started 1 true "origin" [])) as H1
    by (vm_compute; reflexivity).
  assert (forallb (success_event example_parse
            (example_worker 1 true (Some "origin"))) one_batch = true)
    as H2 by reflexivity.
  assert (run example_parse (example_worker 1 true (Some "origin")) one_batch
            (example_started 1 true "origin" []) =
          Some (example_after (example_worker 1 true (Some "origin"))
                  one_batch (example_started 1 true "origin" [])))
    as H3 by (vm_compute; reflexivity).
  destruct (success_path_never_releases example_parse
              example_getTableName (λ _ _ _ _, false) _ _ _ _ _ _
              H1 H2 H3) as (Hrel & _).
  exact (conj H1 (conj H2 (conj H3 Hrel))).
Defined.

(** One batch that succeeds: chunk 7 is still in the data pool. *)
Lemma success_path_no_ledger_delete_no_outcome_witness :
  onMessage example_getTableName (λ _ _ _ _, false) (example_signal 1 false)
    (example_world "origin" []) =
    (Some (example_worker 1 false None),
     example_started 1 false "origin" []) ∧
  forallb (success_event example_parse (example_worker 1 false None))
    one_batch = true ∧
  run example_parse (example_worker 1 false None) one_batch
    (example_started 1 false "origin" []) =
    Some (example_after (example_worker 1 false None) one_batch
            (example_started 1 false "origin" [])) ∧
  dataPool
    (example_after (example_worker 1 false None) one_batch
       (example_started 1 false "origin" [])) = {[ 7 ]}.
Proof.
  assert (onMessage example_getTableName (λ _ _ _ _, false)
            (example_signal 1 false) (example_world "origin" []) =
          (Some (example_worker 1 false None),
           example_started 1 false "origin" [])) as H1
    by (vm_compute; reflexivity).
  assert (forallb (success_event example_parse (example_worker 1 false None))
            one_batch = true) as H2 by reflexivity.
  assert (run example_parse (example_worker 1 false None) one_batch
            (example_started 1 false "origin" []) =
          Some (example_after (example_worker 1 false None) one_batch
                  (example_started 1 false "origin" [])))
    as H3 by (vm_compute; reflexivity).
  destruct (success_path_no_ledger_delete_no_outcome example_parse
              example_getTableName (λ _ _ _ _, false) _ _ _ _ _ _
              H1 H2 H3) as ((Hpool & _) & _).
  exact (conj H1 (conj H2 (conj H3 Hpool))).
Defined.

(** C7: with a watermark of 1 and three rows whose batches are loaded one
    after the other, the buffer holds three rows, two more than the
    watermark, when the third [chunkBuffered] is emitted and the cursor is
    paused; the second copy stream has loaded the first row again. *)
Theorem buffer_grows_past_watermark :
  (λ cw, (_streamsHighWaterMark (conversion cw.1),
          array (dataBuffer cw.1) cw.2, paused cw.2,
          length (copyStreams cw.2), targetRows cw.2))
    <$> example_run 1 false "origin" [] three_batches =
  Some (1%Z, ["a"; "b"; "c"], true, 3, ["a"; "a"; "b"]).
Proof. vm_compute. reflexivity. Qed.

(** C3, as stated, fails: with a watermark of 1, after the copy stream of
    the batch [a] failed the buffer still holds [a]; after it finished the
    buffer still holds [a] as well, and the second batch loads [a] again
    with [b]. *)
Lemma buffer_not_reset_after_drain :
  (λ cw, array (dataBuffer cw.1) cw.2)
    <$> example_run 1 false "origin" [] failed_batch = Some ["a"] ∧
  (λ cw, array (dataBuffer cw.1) cw.2)
    <$> example_run 1 false "origin" [] finished_batch = Some ["a"] ∧
  (λ cw, targetRows cw.2)
    <$> example_run 1 false "origin" [] two_batches = Some ["a"; "a"; "b"].
Proof. repeat split; vm_compute; reflexivity. Qed.

(** C5: with a watermark of 1, a row that cannot be encoded is followed
    by the row [a].  The failure path runs for the first row: the DELETE of
    the chunk is issued on the data pool, the client is released and zero
    rows are reported for the table.  The chunk is not aborted by it: the
    cursor is still streaming, the row [a] is encoded and buffered, a copy
    stream is opened on the client that was released, and [a] is committed
    to the target table. *)
Theorem encoding_failure_does_not_abort_chunk :
  (λ cw, (List.filter (λ e, is_cleanup e || is_copy e) (trace cw.2),
          array (dataBuffer cw.1) cw.2, targetRows cw.2, cursor cw.2,
          released cw.2, elements (dataPool cw.2)))
    <$> example_run 1 false "origin" [] bad_row_then_row =
  Some ([ClientQuery (DeleteFromDataPool "data_pool" 7);
         ReleaseDbClient;
         ProcessSend {| mm_tableName := "orders"; mm_rowsInserted := 0 |};
         CopyFrom (sqlCopy (example_worker 1 false None))],
        ["a"], ["a"], Streaming, 1, []).
Proof. vm_compute. reflexivity. Qed.

(** C9, as stated, fails: the session is in [local], the SHOW succeeds
    and the SET throws; [disableTriggers] returns [local], not [origin]. *)
Lemma disableTriggers_returns_captured_mode_when_set_throws :
  (disableTriggers (example_world "local" [None; Some "permission denied"])).1
    = "local" ∧
  (disableTriggers (example_world "local" [None; Some "permission denied"])).1
    ≠ "origin".
Proof. split; [reflexivity | discriminate]. Qed.

(** The first batch of the example is being drained. *)
Lemma copy_stream_end_signals_witness :
  open_stream 0
    (example_after (example_worker 1 false None) [Result (Some "a")]
       (example_started 1 false "origin" [])) =
    Some (example_stream (example_worker 1 false None)) ∧
  (∃ w',
     step example_parse (example_worker 1 false None)
       (CopyError 0 "copy failed")
       (example_after (example_worker 1 false None) [Result (Some "a")]
          (example_started 1 false "origin" [])) = Some w' ∧
     arrays w' =
       arrays (example_after (example_worker 1 false None)
                 [Result (Some "a")] (example_started 1 false "origin" []))) ∧
  (∃ w',
     step example_parse (example_worker 1 false None) (CopyFinish 0)
       (example_after (example_worker 1 false None) [Result (Some "a")]
          (example_started 1 false "origin" [])) = Some w' ∧
     paused w' = false).
Proof.
  assert (open_stream 0
            (example_after (example_worker 1 false None) [Result (Some "a")]
               (example_started 1 false "origin" [])) =
          Some (example_stream (example_worker 1 false None))) as H1
    by (vm_compute; reflexivity).
  destruct (copy_stream_end_signals example_parse
              (example_worker 1 false None) _ _ _ H1) as (Herr & Hfin).
  split; [exact H1|]. split.
  - destruct (Herr "copy failed") as (w' & Hstep & Harr & _).
    exists w'. exact (conj Hstep Harr).
  - destruct Hfin as (w' & Hstep & _ & Hpaused).
    exists w'. exact (conj Hstep Hpaused).
Defined.

(** The first row of the example chunk cannot be encoded. *)
Lemma encoding_failure_runs_cleanup_witness :
  cursor (example_started 2 true "origin" []) = Streaming ∧
  paused (example_started 2 true "origin" []) = false ∧
  example_parse None
    (_delimiter (conversion (example_worker 2 true (Some "origin")))) =
    inl "illegal value" ∧
  processSendDefined (example_started 2 true "origin" []) = true ∧
  ∃ w',
    step example_parse (example_worker 2 true (Some "origin")) (Result None)
      (example_started 2 true "origin" []) = Some w' ∧
    released w' = S (released (example_started 2 true "origin" [])) ∧
    cursor w' = Streaming ∧ paused w' = false.
Proof.
  assert (cursor (example_started 2 true "origin" []) = Streaming) as H1
    by (vm_compute; reflexivity).
  assert (paused (example_started 2 true "origin" []) = false) as H2
    by (vm_compute; reflexivity).
  assert (example_parse None
            (_delimiter (conversion (example_worker 2 true (Some "origin"))))
          = inl "illegal value") as H3 by reflexivity.
  assert (processSendDefined (example_started 2 true "origin" []) = true)
    as H4 by (vm_compute; reflexivity).
  destruct (encoding_failure_runs_cleanup example_parse
              (example_worker 2 true (Some "origin")) _ None _ H1 H2 H3 H4)
    as (w' & Hstep & _ & Hrel & _ & _ & _ & _ & Hcur & Hpa).
  split; [exact H1|]. split; [exact H2|]. split; [exact H3|].
  split; [exact H4|]. exists w'.
  exact (conj Hstep (conj Hrel (conj Hcur Hpa))).
Defined.

(** Two rows in a row cannot be encoded: the client is released twice. *)
Lemma encoding_failure_does_not_stop_cursor_witness :
  cursor (example_started 2 true "origin" []) = Streaming ∧
  paused (example_started 2 true "origin" []) = false ∧
  example_parse None
    (_delimiter (conversion (example_worker 2 true (Some "origin")))) =
    inl "illegal value" ∧
  ∃ w',
    step example_parse (example_worker 2 true (Some "origin")) (Result None)
      (example_started 2 true "origin" []) = Some w' ∧
    ∃ w'',
      step example_parse (example_worker 2 true (Some "origin"))
        (Result None) w' = Some w'' ∧
      released w'' = 2 + released (example_started 2 true "origin" []).
Proof.
  assert (cursor (example_started 2 true "origin" []) = Streaming) as H1
    by (vm_compute; reflexivity).
  assert (paused (example_started 2 true "origin" []) = false) as H2
    by (vm_compute; reflexivity).
  assert (example_parse None
            (_delimiter (conversion (example_worker 2 true (Some "origin"))))
          = inl "illegal value") as H3 by reflexivity.
  destruct (encoding_failure_does_not_stop_cursor example_parse
              (example_worker 2 true (Some "origin")) _ None _ H1 H2 H3)
    as (w' & Hstep & _ & _ & _ & Hagain).
  destruct (Hagain None "illegal value" H3)
    as (w'' & Hstep2 & _ & _ & Hrel & _).
  split; [exact H1|]. split; [exact H2|]. split; [exact H3|].
  exists w'. split; [exact Hstep|]. exists w''. exact (conj Hstep2 Hrel).
Defined.


(** The consistency check answers that the example chunk was applied. *)
Lemma recovery_path_only_cleans_ledger_witness :
  (λ (_ : Conversion) (_ : nat) (_ : gset nat) (_ : list string), true)
    (config (example_signal 1 true)) (_id (chunk (example_signal 1 true)))
    (dataPool (example_world "origin" []))
    (targetRows (example_world "origin" [])) = true ∧
  (onMessage example_getTableName (λ _ _ _ _, true) (example_signal 1 true)
     (example_world "origin" [])).1 = None ∧
  released
    (exec (onMessage example_getTableName (λ _ _ _ _, true)
             (example_signal 1 true)) (example_world "origin" [])) = 1.
Proof.
  assert ((λ (_ : Conversion) (_ : nat) (_ : gset nat) (_ : list string), true)
            (config (example_signal 1 true))
            (_id (chunk (example_signal 1 true)))
            (dataPool (example_world "origin" []))
            (targetRows (example_world "origin" [])) = true) as H1
    by reflexivity.
  destruct (recovery_path_only_cleans_ledger example_getTableName
              (λ _ _ _ _, true) (example_signal 1 true)
              (example_world "origin" []) H1)
    as (Hnone & _ & _ & Hrel & _).
  exact (conj H1 (conj Hnone Hrel)).
Defined.

(** ** Further properties of the loader *)

(** *** deleteChunk *)

(** X1: [deleteChunk] releases the client once whatever its statements do.
    When the DELETE throws, the error is recorded, the data pool and the
    mode of the session are left as they are and no SET is issued; when it
    does not, the entry of the chunk is gone from the data pool. *)
Theorem deleteChunk_always_releases conv id role w :
  released (exec (deleteChunk conv id role) w) = S (released w) ∧
  count is_release (trace (exec (deleteChunk conv id role) w)) =
    S (count is_release (trace w)) ∧
  last (trace (exec (deleteChunk conv id role) w)) = Some ReleaseDbClient ∧
  frame (exec (deleteChunk conv id role) w) = frame w ∧
  match pgFaults w with
  | Some e :: _ =>
      trace (exec (deleteChunk conv id role) w) =
        trace w ++
        [ClientQuery (DeleteFromDataPool (getDataPoolTableName conv) id);
         GenerateError (tab +:+ "--[DataLoader::deleteChunk] " +:+ e)
           (DeleteFromDataPool (getDataPoolTableName conv) id);
         ReleaseDbClient] ∧
      dataPool (exec (deleteChunk conv id role) w) = dataPool w ∧
      session_replication_role (exec (deleteChunk conv id role) w) =
        session_replication_role w
  | _ =>
      dataPool (exec (deleteChunk conv id role) w) = dataPool w ∖ {[ id ]}
  end.
Proof.
  monad. destruct role as [[|? ?]|]; faults;
    rewrite ?app_cons_assoc, ?last_app; cbn;
    unfold count; rewrite ?List.filter_app, ?length_app; cbn;
    repeat split; lia || done.
Qed.

(** X2: [deleteChunk] issues the SET that restores the mode exactly when it
    was given a mode that is a non-empty string and its DELETE did not
    throw: with [null], with the empty string or after a DELETE that
    threw, no SET is issued. *)
Theorem deleteChunk_restores_iff conv id role w :
  count is_set (trace (exec (deleteChunk conv id role) w)) =
    (if truthy role && negb (next_throws w) then 1 else 0) +
    count is_set (trace w).
Proof.
  unfold next_throws. monad. destruct role as [[|? ?]|]; faults;
    unfold count; rewrite ?List.filter_app, ?length_app; cbn; lia.
Qed.

(** *** disableTriggers and enableTriggers *)

(** X3: when no statement throws, [disableTriggers] puts the session in
    [replica] and returns the mode it was in, and [enableTriggers] with the
    returned mode puts the session back in it. *)
Theorem triggers_round_trip w :
  pgFaults w = [] →
  (disableTriggers w).1 = session_replication_role w ∧
  session_replication_role (exec disableTriggers w) = "replica" ∧
  session_replication_role
    (exec (enableTriggers (disableTriggers w).1) (exec disableTriggers w)) =
    session_replication_role w.
Proof. intros H. monad. cbn. repeat (rewrite H; cbn). done. Qed.

(** X4: when the SHOW of [disableTriggers] throws and the later SET of
    [enableTriggers] does not, the session ends in [origin], whatever mode
    it was in: the default of the failed capture is what is restored. *)
Theorem failed_capture_restores_origin w e :
  pgFaults w = [Some e] →
  session_replication_role (exec disableTriggers w) =
    session_replication_role w ∧
  session_replication_role
    (exec (enableTriggers (disableTriggers w).1) (exec disableTriggers w)) =
    "origin".
Proof. intros H. monad. cbn. repeat (rewrite H; cbn). done. Qed.

(** *** More on the failure path *)

Lemma processDataError_dataPool conv err sql sqlCopy tn id role w :
  dataPool (exec (processDataError conv err sql sqlCopy tn id role) w) =
    if next_throws w then dataPool w else dataPool w ∖ {[ id ]}.
Proof.
  unfold next_throws. monad. destruct role as [[|? ?]|]; faults; done.
Qed.

Lemma processDataError_without_mode conv err sql sqlCopy tn id w :
  session_replication_role
    (exec (processDataError conv err sql sqlCopy tn id None) w) =
    session_replication_role w ∧
  count is_mode_statement
    (trace (exec (processDataError conv err sql sqlCopy tn id None) w)) =
    count is_mode_statement (trace w).
Proof.
  monad. faults; unfold count; rewrite ?List.filter_app, ?length_app; cbn;
    split; lia || done.
Qed.

Section MoreSteps.

Context {Row : Type}.
Variable parse : Row → string → string + string.
Variable getTableName : Conversion → string → bool → string.
Variable dataTransferred : Conversion → nat → gset nat → list string → bool.

Local Abbreviation step := (step parse).
Local Abbreviation run := (run parse).
Local Abbreviation onResult := (onResult parse).
Local Abbreviation onMessage := (onMessage getTableName dataTransferred).
Local Abbreviation success_event := (success_event parse).
Local Abbreviation reachable := (reachable parse getTableName dataTransferred).
Local Abbreviation encoded := (encoded parse).
Local Abbreviation failures := (failures parse).

Implicit Types (c : Worker) (w : World) (ev : @Event Row).

(** A property kept by every step is kept by every run. *)
Lemma run_invariant c (P : World → Prop) :
  (∀ ev w w', P w → step c ev w = Some w' → P w') →
  ∀ evs w w', P w → run c evs w = Some w' → P w'.
Proof.
  intros Hstep evs. induction evs as [|ev evs IH]; intros w w' HP; cbn.
  - by intros [= <-].
  - destruct (step c ev w) as [w1|] eqn:E; [|done]. apply IH. by eapply Hstep.
Qed.

(** A failing event runs [processDataError], from a world that differs
    from the one before in the cursor or in the state of a stream only,
    and with the chunk and the mode of the worker. *)
Lemma step_failure c ev w w' :
  success_event c ev = false → step c ev w = Some w' →
  ∃ conv e sql sqlCopy tn id role w1,
    w' = exec (processDataError conv e sql sqlCopy tn id role) w1 ∧
    pg_state w1 = pg_state w ∧ trace w1 = trace w ∧
    targetRows w1 = targetRows w ∧ arrays w1 = arrays w ∧
    nextRef w1 = nextRef w ∧ paused w1 = paused w ∧
    processSendDefined w1 = processSendDefined w ∧
    (copyStreams w1 = copyStreams w ∨
     ∃ i, copyStreams w1 = alter (set_status Errored) i (copyStreams w)) ∧
    (Forall (stream_of c) (copyStreams w) →
     conv = conversion c ∧ id = dataPoolId c ∧
     role = originalSessionReplicationRole c).
Proof.
  destruct ev as [row|e| |i|i e]; cbn; try done.
  - destruct (parse row _) as [e|] eqn:Hparse; [|done]. intros _.
    destruct (cursor w), (paused w) eqn:Hp; try done. intros [= <-].
    rewrite (onResult_failure parse _ _ e) by done.
    eexists _, _, _, _, _, _, _, w. split; [reflexivity|].
    repeat split; by eauto.
  - intros _. destruct (cursor w); try done. intros [= <-].
    eexists _, _, _, _, _, _, _, (with_cursor Failed w).
    split; [reflexivity|]. repeat split; by eauto.
  - intros _. destruct (open_stream i w) as [cs|] eqn:Hopen; [|done].
    intros [= <-].
    change (exec (set_stream i (set_status Errored);; onCopyError cs e) w) with
      (exec (processDataError (cs_conv cs) e (cs_sql cs)
        (cs_sqlCopy cs) (cs_tableName cs) (cs_dataPoolId cs)
        (cs_originalSessionReplicationRole cs))
        (exec (set_stream i (set_status Errored)) w)).
    exists (cs_conv cs), e, (cs_sql cs), (cs_sqlCopy cs), (cs_tableName cs),
      (cs_dataPoolId cs), (cs_originalSessionReplicationRole cs),
      (exec (set_stream i (set_status Errored)) w).
    split; [reflexivity|]. cbn.
    repeat split; try done; [by eauto|..];
      apply open_in_Some in Hopen as [Hlook _];
      by destruct (proj1 (Forall_lookup _ _) H _ _ Hlook)
        as (? & ? & ? & ? & ? & ?).
Qed.

(** What an event on which nothing fails leaves as it is. *)
Lemma step_success c ev w w' :
  success_event c ev = true → step c ev w = Some w' →
  pg_state w' = pg_state w ∧
  processSendDefined w' = processSendDefined w ∧
  ∃ t, trace w' = trace w ++ t ∧ forallb quiet t = true.
Proof.
  intros Hev Hstep.
  destruct (success_step parse _ _ _ _ Hev Hstep) as (Hpg & Ht).
  split; [done|]. split; [|done]. revert Hev Hstep.
  destruct ev as [row| | |i|]; cbn; try done.
  - destruct (parse row _) as [|csv] eqn:Hparse; [done|]. intros _.
    destruct (cursor w), (paused w); try done. intros [= <-].
    unfold onResult. rewrite Hparse. monad. cbn.
    by destruct (_ <=? _)%Z.
  - intros _. by destruct (cursor w); intros [= <-].
  - intros _. destruct (open_stream i w); [|done]. by intros [= <-].
Qed.

(** *** The retrieval error *)

(** X5: when the query emits ['error'], the failure path runs with the
    retrieval statement and the name of the target table: the error is
    recorded, the retrieval statement is written to the log of the table,
    the DELETE is issued on the data pool, the client is released and zero
    rows are reported.  Neither the buffer nor the target table changes,
    and no copy stream is opened or closed. *)
Theorem retrieval_error_runs_cleanup c w e :
  cursor w = Streaming → processSendDefined w = true →
  ∃ w',
    step c (QueryError e) w = Some w' ∧
    (∃ mid,
       trace w' =
         trace w ++
         [GenerateError (tab +:+ "--[populateTableWorker] " +:+ e) (sqlCopy c);
          Log (tab +:+ "--[populateTableWorker] Error loading table data:"
                   +:+ newline +:+ sql_text (sqlRetrieve c) +:+ newline)
              (Some (path_join (_logsDirPath (conversion c))
                       (tableName c +:+ ".log")));
          ClientQuery
            (DeleteFromDataPool (getDataPoolTableName (conversion c))
               (dataPoolId c))] ++
         mid ++
         [ReleaseDbClient;
          ProcessSend {| mm_tableName := tableName c; mm_rowsInserted := 0 |}] ∧
       forallb is_restore_step mid = true ∧
       (pgFaults w = [] →
        mid = restore_effects (originalSessionReplicationRole c))) ∧
    released w' = S (released w) ∧
    arrays w' = arrays w ∧ targetRows w' = targetRows w ∧
    copyStreams w' = copyStreams w.
Proof.
  intros Hc Hsend. cbn. rewrite Hc. eexists. split; [reflexivity|].
  unfold onQueryError.
  pose proof (processDataError_frame (conversion c) e (sqlRetrieve c)
    (sqlCopy c) (tableName c) (dataPoolId c)
    (originalSessionReplicationRole c) (with_cursor Failed w))
    as [= Ht Ha _ Hcs _ Hcu _].
  split; [|split; [|split; [|split]]]; try done.
  - destruct (processDataError_trace (conversion c) e (sqlRetrieve c)
      (sqlCopy c) (tableName c) (dataPoolId c)
      (originalSessionReplicationRole c) (with_cursor Failed w))
      as (mid & Hmid & Hq & Hnf).
    exists mid. cbn in Hmid, Hnf. by rewrite Hsend in Hmid.
  - by rewrite processDataError_released.
Qed.

(** *** Invariants of the runs *)

(** X6: in every world the worker reaches, at most one copy stream is open,
    and the cursor is paused while one is: batches are loaded one after the
    other. *)
Theorem batches_are_sequential c w :
  reachable c w →
  (∀ i j, is_Some (open_stream i w) → is_Some (open_stream j w) → i = j) ∧
  (∀ i, is_Some (open_stream i w) → paused w = true).
Proof.
  intros (_ & Huniq & Hnone)%(reachable_sequential parse). split; [done|].
  intros i [cs Hopen]. destruct (paused w); [done|].
  by rewrite Hnone in Hopen.
Qed.

(** *** The failure path of a data-only chunk *)

Lemma reachable_run c w evs w' :
  reachable c w → run c evs w = Some w' → reachable c w'.
Proof.
  intros (signal & w0 & w1 & evs0 & Hnil & Hmsg & Hrun0) Hrun.
  exists signal, w0, w1, (evs0 ++ evs). split; [done|]. split; [done|].
  clear Hmsg. revert w1 Hrun0.
  induction evs0 as [|ev evs0 IH]; intros w1; cbn.
  - by intros [= ->].
  - destruct (step c ev w1); [|done]. apply IH.
Qed.

Lemma reachable_start signal w0 c w1 :
  copyStreams w0 = [] → onMessage signal w0 = (Some c, w1) → reachable c w1.
Proof. intros Hnil Hmsg. by exists signal, w0, w1, []. Qed.

(** X8: for a data-only chunk whose statements do not throw and whose session
    is in a mode that is not the empty string: when, after events on which
    nothing fails, an event fails (retrieval, encoding or copy), the session
    is back in the mode it had before the chunk, the entry of the chunk is
    gone from the data pool and the client was released once. *)
Theorem failure_path_restores_mode signal w0 c w1 evs ev w w' :
  copyStreams w0 = [] →
  onMessage signal w0 = (Some c, w1) →
  shouldMigrateOnlyData (config signal) = true →
  pgFaults w0 = [] → session_replication_role w0 ≠ "" →
  forallb (success_event c) evs = true → run c evs w1 = Some w →
  success_event c ev = false → step c ev w = Some w' →
  session_replication_role w' = session_replication_role w0 ∧
  dataPool w' = dataPool w0 ∖ {[ _id (chunk signal) ]} ∧
  released w' = S (released w0).
Proof.
  intros Hnil Hmsg Honly Hf Hne Hevs Hrun Hev Hstep.
  destruct (onMessage_data_only _ _ _ _ _ _ Hmsg Honly Hf)
    as (Hrole & _ & Hf1).
  destruct (onMessage_normal _ _ _ _ _ _ Hmsg)
    as (_ & _ & _ & Hid & _ & _ & _ & Hpool & Hrel & _).
  destruct (success_run parse _ _ _ _ Hevs Hrun)
    as ([= _ Hpool' Hf' Hrel'] & _).
  assert (reachable c w) as Hreach
    by (eapply reachable_run; [by eapply reachable_start|done]).
  apply (reachable_sequential parse) in Hreach as (Hof & _).
  destruct (step_failure _ _ _ _ Hev Hstep)
    as (conv & e & sql & sqlCopy & tn & id & role & w2 & -> &
        [= Hr2 Hp2 Hf2 Hrel2] & _ & _ & _ & _ & _ & _ & _ & Hc).
  destruct (Hc Hof) as (-> & -> & ->).
  assert (pgFaults w2 = []) as Hf3 by congruence.
  destruct (processDataError_pg (conversion c) e sql sqlCopy tn (dataPoolId c)
    (originalSessionReplicationRole c) w2 Hf3) as (-> & -> & _).
  rewrite processDataError_released, Hrole.
  split; [|split; congruence].
  cbn. by destruct (session_replication_role w0).
Qed.

(** *** The data pool and the counts of a run *)

(** X9: a run deletes at most the entry of its own chunk from the data pool:
    every other entry is kept, and none is added. *)
Theorem only_own_ledger_entry_is_deleted c w evs w' :
  reachable c w → run c evs w = Some w' →
  dataPool w' ⊆ dataPool w ∧
  dataPool w ∖ {[ dataPoolId c ]} ⊆ dataPool w'.
Proof.
  intros Hreach. revert w Hreach. induction evs as [|ev evs IH];
    intros w Hreach; cbn.
  - intros [= <-]. split; [done|]. by apply subseteq_difference_l.
  - destruct (step c ev w) as [w1|] eqn:Hstep; [|done]. intros Hrun.
    assert (reachable c w1) as Hreach1.
    { apply (reachable_run c w [ev]); [done|]. cbn. by rewrite Hstep. }
    destruct (IH _ Hreach1 Hrun) as (Hsub & Hkeep).
    assert (dataPool w1 = dataPool w ∨
            dataPool w1 = dataPool w ∖ {[ dataPoolId c ]}) as Hone.
    { destruct (success_event c ev) eqn:Hev.
      - left. by destruct (step_success _ _ _ _ Hev Hstep) as ([= _ -> _ _] & _).
      - apply (reachable_sequential parse) in Hreach as (Hof & _).
        destruct (step_failure _ _ _ _ Hev Hstep)
          as (conv & e & sql & sqlCopy & tn & id & role & w2 & -> &
              [= _ Hp2 _ _] & _ & _ & _ & _ & _ & _ & _ & Hc).
        destruct (Hc Hof) as (_ & -> & _).
        rewrite processDataError_dataPool, Hp2.
        destruct (next_throws w2); by eauto. }
    destruct Hone as [Heq|Heq]; rewrite Heq in Hsub, Hkeep.
    + done.
    + split.
      * etrans; [exact Hsub|]. by apply subseteq_difference_l.
      * by rewrite difference_twice_L in Hkeep.
Qed.

Lemma failures_cons c ev evs :
  failures c (ev :: evs) =
    (if success_event c ev then 0 else 1) + failures c evs.
Proof. unfold failures. cbn. by destruct (success_event c ev). Qed.

Lemma run_counts c evs : ∀ w w',
  run c evs w = Some w' →
  processSendDefined w' = processSendDefined w ∧
  released w' = released w + failures c evs ∧
  count is_release (trace w') = count is_release (trace w) + failures c evs ∧
  count is_ledger_delete (trace w') =
    count is_ledger_delete (trace w) + failures c evs ∧
  count is_send (trace w') =
    count is_send (trace w) +
    (if processSendDefined w then failures c evs else 0).
Proof.
  induction evs as [|ev evs IH]; intros w w' Hrun; cbn in Hrun.
  - injection Hrun as <-. unfold failures. cbn.
    destruct (processSendDefined w); repeat split; lia.
  - destruct (step c ev w) as [w1|] eqn:Hstep; [|done].
    destruct (IH _ _ Hrun) as (-> & -> & -> & -> & ->).
    rewrite failures_cons. destruct (success_event c ev) eqn:Hev.
    + destruct (step_success _ _ _ _ Hev Hstep)
        as ([= _ _ _ ->] & -> & t & -> & Hq).
      rewrite !count_app.
      rewrite (count_zero is_release _ t Hq),
        (count_zero is_ledger_delete _ t Hq), (count_zero is_send _ t Hq);
        [destruct (processSendDefined w); repeat split; done || lia| | |];
        intros e; unfold quiet;
        destruct e as [| | | |[]| | | | | | | | |]; done.
    + destruct (step_failure _ _ _ _ Hev Hstep)
        as (conv & e & sql & sqlCopy & tn & id & role & w2 & -> &
            [= _ _ _ Hrel2] & Ht2 & _ & _ & _ & _ & Hs2 & _).
      pose proof (processDataError_frame conv e sql sqlCopy tn id role w2)
        as [= _ _ _ _ _ _ ->].
      destruct (processDataError_counts conv e sql sqlCopy tn id role w2)
        as (-> & -> & -> & _).
      rewrite processDataError_released, Hrel2, Ht2, Hs2.
      destruct (processSendDefined w); repeat split; done || lia.
Qed.

(** X10: from the message to the end of a run, the client is released once for
    every event that fails, the DELETE is issued on the data pool once for
    every such event and, where [process.send] is defined, one message is
    sent for every such event: none of these when nothing fails, two or
    more when two or more events fail. *)
Theorem cleanup_runs_once_per_failure signal w0 c w1 evs w :
  onMessage signal w0 = (Some c, w1) → run c evs w1 = Some w →
  released w = released w0 + failures c evs ∧
  count is_release (trace w) = count is_release (trace w0) + failures c evs ∧
  count is_ledger_delete (trace w) =
    count is_ledger_delete (trace w0) + failures c evs ∧
  count is_send (trace w) =
    count is_send (trace w0) +
    (if processSendDefined w0 then failures c evs else 0).
Proof.
  intros Hmsg Hrun.
  destruct (onMessage_normal _ _ _ _ _ _ Hmsg)
    as (_ & _ & _ & _ & _ & _ & _ & _ & Hrel & Hsd & _ & _ & _ &
        t & Ht & Hq).
  destruct (run_counts _ _ _ _ Hrun) as (_ & -> & -> & -> & ->).
  rewrite Hrel, Hsd, Ht, !count_app.
  rewrite (count_zero is_release _ t Hq),
    (count_zero is_ledger_delete _ t Hq), (count_zero is_send _ t Hq);
    [destruct (processSendDefined w0); repeat split; done || lia| | |];
    intros e; unfold is_cleanup;
    destruct e as [| | | |[]| | | | | | | | |]; done.
Qed.

(** *** The buffer and the batches *)

Lemma onMessage_buffer signal w0 c w1 :
  onMessage signal w0 = (Some c, w1) → array (dataBuffer c) w1 = [].
Proof.
  unfold onMessage, populateTableWorker. monad. cbn.
  destruct (dataTransferred _ _ _ _); cbn; [by faults|].
  destruct (shouldMigrateOnlyData _); faults; intros [= <- <-];
    unfold array; cbn; by rewrite lookup_insert_eq.
Qed.

Lemma step_buffer c ev w w' :
  step c ev w = Some w' → dataBuffer c < nextRef w →
  array (dataBuffer c) w' = array (dataBuffer c) w ++ encoded c [ev].
Proof.
  intros Hstep Hlt. destruct (success_event c ev) eqn:Hev.
  - revert Hstep. destruct ev as [row| | |i|]; cbn in Hev |- *; try done.
    + destruct (parse row _) as [|csv] eqn:Hparse; [done|].
      destruct (cursor w), (paused w); try done. intros [= <-].
      by destruct (onResult_success parse c row csv w Hparse) as (-> & _).
    + destruct (cursor w); intros [= <-]; by rewrite app_nil_r.
    + destruct (open_stream i w) as [cs|] eqn:Hopen; [|done].
      destruct (finish_rebinds_parameter parse c w i cs Hopen)
        as (w2 & Hstep2 & _ & _ & Hkeep).
      cbn in Hstep2. rewrite Hopen in Hstep2. injection Hstep2 as <-.
      intros [= <-]. rewrite app_nil_r. apply Hkeep. lia.
  - destruct (step_failure _ _ _ _ Hev Hstep)
      as (conv & e & sql & sqlCopy & tn & id & role & w1 & -> & _ & _ &
          _ & Ha & _).
    pose proof (processDataError_frame conv e sql sqlCopy tn id role w1)
      as [= _ Ha' _ _ _ _ _].
    assert (encoded c [ev] = []) as ->.
    { clear Hstep. destruct ev as [row| | | |]; cbn in Hev |- *; try done.
      by destruct (parse row _). }
    rewrite app_nil_r. unfold array. by rewrite Ha', Ha.
Qed.

Lemma encoded_cons c ev evs : encoded c (ev :: evs) = encoded c [ev] ++ encoded c evs.
Proof.
  destruct ev as [row| | | |]; cbn; try done. by destruct (parse row _).
Qed.

Lemma run_buffer c evs : ∀ w w',
  run c evs w = Some w' → dataBuffer c < nextRef w →
  array (dataBuffer c) w' = array (dataBuffer c) w ++ encoded c evs.
Proof.
  induction evs as [|ev evs IH]; intros w w' Hrun Hlt; cbn in Hrun.
  - injection Hrun as <-. cbn. by rewrite app_nil_r.
  - destruct (step c ev w) as [w1|] eqn:Hstep; [|done].
    rewrite encoded_cons, app_assoc, <- (step_buffer _ _ _ _ Hstep Hlt).
    apply IH; [done|]. apply (step_nextRef parse) in Hstep. lia.
Qed.

(** X11: at every moment of a run the buffer of the worker holds the records of
    all the rows encoded since the start of the chunk, in the order of
    their delivery: rows that failed to encode are left out, and no batch,
    finished or failed, takes a row out of it. *)
Theorem buffer_holds_every_encoded_row signal w0 c w1 evs w :
  onMessage signal w0 = (Some c, w1) → run c evs w1 = Some w →
  array (dataBuffer c) w = encoded c evs.
Proof.
  intros Hmsg Hrun.
  destruct (onMessage_normal _ _ _ _ _ _ Hmsg)
    as (_ & _ & _ & _ & _ & _ & _ & _ & _ & _ & _ & _ & Hlt & _).
  rewrite (run_buffer _ _ _ _ Hrun Hlt).
  by rewrite (onMessage_buffer _ _ _ _ Hmsg).
Qed.

Lemma step_piped c ev w w' :
  piped_from c w → step c ev w = Some w' → piped_from c w'.
Proof.
  unfold piped_from. intros Hp Hstep.
  destruct (success_event c ev) eqn:Hev.
  - revert Hstep. destruct ev as [row| | |i|]; cbn in Hev |- *; try done.
    + destruct (parse row _) as [|csv] eqn:Hparse; [done|].
      destruct (cursor w), (paused w); try done. intros [= <-].
      destruct (onResult_success parse c row csv w Hparse)
        as (_ & _ & _ & _ & _ & Hif).
      destruct (_ <=? _)%Z; destruct Hif as (_ & _ & ->); [|done].
      apply Forall_app. split; [done|]. by repeat constructor.
    + by destruct (cursor w); intros [= <-].
    + destruct (open_stream i w); [|done]. intros [= <-].
      monad. cbn. apply Forall_alter; [|done]. by apply Forall_alter.
  - destruct (step_failure _ _ _ _ Hev Hstep)
      as (conv & e & sql & sqlCopy & tn & id & role & w1 & -> & _ & _ &
          _ & _ & _ & _ & _ & Hcs & _).
    pose proof (processDataError_frame conv e sql sqlCopy tn id role w1)
      as [= _ _ _ -> _ _ _].
    destruct Hcs as [->|(i & ->)]; [done|]. by apply Forall_alter.
Qed.

(** X12: the array piped into a copy stream that is open is the buffer of
    the worker: the stream is given the records of all the rows encoded
    since the start of the chunk, those already piped into the streams
    opened before it included, not only the rows delivered after the
    previous batch. *)
Theorem copy_stream_is_fed_all_rows_so_far signal w0 c w1 evs w i cs :
  copyStreams w0 = [] →
  onMessage signal w0 = (Some c, w1) → run c evs w1 = Some w →
  open_stream i w = Some cs →
  cs_piped cs = Some (dataBuffer c) ∧
  piped_rows cs w = encoded c evs.
Proof.
  intros Hnil Hmsg Hrun Hopen.
  destruct (onMessage_normal _ _ _ _ _ _ Hmsg)
    as (_ & _ & _ & _ & _ & Hcs & _ & _ & _ & _ & _ & _ & Hlt & _).
  assert (piped_from c w) as Hp.
  { apply (run_invariant c (piped_from c) (step_piped c) evs w1); [|done].
    unfold piped_from. rewrite Hcs, Hnil. constructor. }
  apply open_in_Some in Hopen as [Hlook _].
  pose proof (proj1 (Forall_lookup _ _) Hp _ _ Hlook) as Hpiped.
  split; [done|]. unfold piped_rows. rewrite Hpiped.
  rewrite (run_buffer _ _ _ _ Hrun Hlt).
  by rewrite (onMessage_buffer _ _ _ _ Hmsg).
Qed.

Lemma results_cons ev evs :
  results (ev :: evs) =
    (match ev with Result _ => 1 | _ => 0 end) + results evs.
Proof. unfold results. cbn. by destruct ev. Qed.

Lemma run_below_watermark c evs : ∀ w w',
  run c evs w = Some w' → copyStreams w = [] →
  (Z.of_nat (length (array (dataBuffer c) w) + results evs)
     < _streamsHighWaterMark (conversion c))%Z →
  copyStreams w' = [] ∧ targetRows w' = targetRows w.
Proof.
  induction evs as [|ev evs IH]; intros w w' Hrun Hnil Hlt; cbn in Hrun.
  - by injection Hrun as <-.
  - destruct (step c ev w) as [w1|] eqn:Hstep; [|done].
    rewrite results_cons in Hlt.
    assert (copyStreams w1 = [] ∧ targetRows w1 = targetRows w ∧
            length (array (dataBuffer c) w1) ≤
              length (array (dataBuffer c) w) +
              match ev with Result _ => 1 | _ => 0 end)%nat
      as (Hnil1 & Ht1 & Hlen).
    { destruct (success_event c ev) eqn:Hev.
      - revert Hstep.
        destruct ev as [row| | |i|]; cbn in Hev |- *; try done.
        + destruct (parse row _) as [|csv] eqn:Hparse; [done|].
          destruct (cursor w), (paused w); try done. intros [= <-].
          destruct (onResult_success parse c row csv w Hparse)
            as (-> & _ & -> & _ & _ & Hif).
          rewrite length_app in Hif |- *. cbn in Hif |- *.
          destruct (Z.leb_spec (_streamsHighWaterMark (conversion c))
            (Z.of_nat (length (array (dataBuffer c) w) + 1))); [lia|].
          destruct Hif as (_ & _ & ->). by repeat split.
        + destruct (cursor w); intros [= <-]; unfold array; cbn;
            repeat split; done || lia.
        + unfold open_stream. by rewrite Hnil.
      - destruct (step_failure _ _ _ _ Hev Hstep)
          as (conv & e & sql & sqlCopy & tn & id & role & w2 & -> & _ & _ &
              Ht & Ha & _ & _ & _ & Hcs & _).
        pose proof (processDataError_frame conv e sql sqlCopy tn id role w2)
          as [= -> Ha' _ -> _ _ _].
        unfold array. rewrite Ha', Ha. split; [|split; [done|lia]].
        destruct Hcs as [->|(i & ->)]; [done|]. by rewrite Hnil. }
    destruct (IH _ _ Hrun Hnil1) as (-> & ->); [lia|done].
Qed.

(** X13: a chunk that delivers fewer rows than the watermark is never loaded:
    no copy stream is opened, whatever the events are, and the target table
    is left as it was before the chunk; the end of the cursor does not
    flush the buffer. *)
Theorem short_chunk_is_never_loaded signal w0 c w1 evs w :
  copyStreams w0 = [] →
  onMessage signal w0 = (Some c, w1) → run c evs w1 = Some w →
  (Z.of_nat (results evs) < _streamsHighWaterMark (conversion c))%Z →
  copyStreams w = [] ∧ targetRows w = targetRows w0.
Proof.
  intros Hnil Hmsg Hrun Hlt.
  destruct (onMessage_normal _ _ _ _ _ _ Hmsg)
    as (_ & _ & _ & _ & _ & Hcs & Ht & _).
  rewrite <- Ht. apply (run_below_watermark c evs w1); [done|congruence|].
  by rewrite (onMessage_buffer _ _ _ _ Hmsg).
Qed.

(** *** The mode of the session outside the data-only migration *)

Lemma onMessage_without_mode signal w0 c w1 :
  onMessage signal w0 = (Some c, w1) →
  shouldMigrateOnlyData (config signal) = false →
  session_replication_role w1 = session_replication_role w0 ∧
  count is_mode_statement (trace w1) = count is_mode_statement (trace w0).
Proof.
  unfold onMessage, populateTableWorker. monad. cbn.
  intros H Honly. revert H. rewrite Honly.
  destruct (dataTransferred _ _ _ _); cbn; [by faults|].
  intros [= <- <-]. cbn. split; [done|].
  unfold count. rewrite !List.filter_app, !length_app. cbn. lia.
Qed.

(** X14: when the migration is not data-only, the loader never reads or sets
    the mode of the session: from the message to the end of any run, also
    one on which events fail, no SHOW and no SET is issued and the session
    stays in its mode. *)
Theorem mode_untouched_unless_data_only signal w0 c w1 evs w :
  copyStreams w0 = [] →
  onMessage signal w0 = (Some c, w1) →
  shouldMigrateOnlyData (config signal) = false →
  run c evs w1 = Some w →
  session_replication_role w = session_replication_role w0 ∧
  count is_mode_statement (trace w) = count is_mode_statement (trace w0).
Proof.
  intros Hnil Hmsg Honly Hrun.
  destruct (onMessage_without_mode _ _ _ _ Hmsg Honly) as (<- & <-).
  destruct (onMessage_normal _ _ _ _ _ _ Hmsg)
    as (_ & _ & _ & _ & Hnone & _).
  specialize (Hnone Honly).
  assert (reachable c w1) as Hreach by by eapply reachable_start.
  clear Hmsg Hnil. revert w1 Hreach Hrun.
  induction evs as [|ev evs IH]; intros w1 Hreach Hrun; cbn in Hrun.
  - by injection Hrun as <-.
  - destruct (step c ev w1) as [w2|] eqn:Hstep; [|done].
    assert (reachable c w2) as Hreach2.
    { apply (reachable_run c w1 [ev]); [done|]. cbn. by rewrite Hstep. }
    destruct (IH _ Hreach2 Hrun) as (-> & ->).
    destruct (success_event c ev) eqn:Hev.
    + destruct (step_success _ _ _ _ Hev Hstep)
        as ([= -> _ _ _] & _ & t & -> & Hq).
      split; [done|]. rewrite count_app.
      rewrite (count_zero is_mode_statement _ t Hq); [lia|].
      intros e; unfold quiet. by destruct e as [| | | |[]| | | | | | | | |].
    + apply (reachable_sequential parse) in Hreach as (Hof & _).
      destruct (step_failure _ _ _ _ Hev Hstep)
        as (conv & e & sql & sqlCopy & tn & id & role & w3 & -> &
            [= Hr _ _ _] & Ht & _ & _ & _ & _ & _ & _ & Hc).
      destruct (Hc Hof) as (_ & _ & ->). rewrite Hnone.
      destruct (processDataError_without_mode conv e sql sqlCopy tn id w3)
        as (-> & ->).
      by rewrite Hr, Ht.
Qed.

End MoreSteps.

(** ** The example chunk, continued *)

Local Abbreviation fresh_work :=
  (λ (_ : Conversion) (_ : nat) (_ : gset nat) (_ : list string), false).
Local Abbreviation plain_worker := (example_worker 1 false None).
Local Abbreviation plain_start := (example_started 1 false "origin" []).
Local Abbreviation local_worker := (example_worker 1 true (Some "local")).
Local Abbreviation local_start := (example_started 1 true "local" []).

(** The session is in [local] and no statement throws. *)
Lemma triggers_round_trip_witness :
  pgFaults (example_world "local" []) = [] ∧
  session_replication_role
    (exec (enableTriggers (disableTriggers (example_world "local" [])).1)
       (exec disableTriggers (example_world "local" []))) =
    session_replication_role (example_world "local" []).
Proof.
  assert (pgFaults (example_world "local" []) = []) as H1 by reflexivity.
  exact (conj H1 (proj2 (proj2 (triggers_round_trip _ H1)))).
Defined.

(** The session is in [local] and the SHOW throws. *)
Lemma failed_capture_restores_origin_witness :
  pgFaults (example_world "local" [Some "timeout"]) = [Some "timeout"] ∧
  session_replication_role
    (exec (enableTriggers
             (disableTriggers (example_world "local" [Some "timeout"])).1)
       (exec disableTriggers (example_world "local" [Some "timeout"]))) =
    "origin".
Proof.
  assert (pgFaults (example_world "local" [Some "timeout"]) =
          [Some "timeout"]) as H1 by reflexivity.
  exact (conj H1 (proj2 (failed_capture_restores_origin _ _ H1))).
Defined.

(** The query of the example chunk fails before any row. *)
Lemma retrieval_error_runs_cleanup_witness :
  cursor plain_start = Streaming ∧
  processSendDefined plain_start = true ∧
  ∃ w',
    step example_parse plain_worker (QueryError "connection lost")
      plain_start = Some w' ∧
    released w' = S (released plain_start) ∧
    targetRows w' = targetRows plain_start.
Proof.
  assert (cursor plain_start = Streaming) as H1 by (vm_compute; reflexivity).
  assert (processSendDefined plain_start = true) as H2
    by (vm_compute; reflexivity).
  destruct (retrieval_error_runs_cleanup example_parse plain_worker _
              "connection lost" H1 H2)
    as (w' & Hstep & _ & Hrel & _ & Htarget & _).
  split; [exact H1|]. split; [exact H2|]. exists w'.
  exact (conj Hstep (conj Hrel Htarget)).
Defined.

(** The second batch of the example is being drained. *)
Lemma batches_are_sequential_witness :
  reachable example_parse example_getTableName fresh_work plain_worker
    (example_after plain_worker second_batch_open plain_start) ∧
  ∀ i,
    is_Some (open_stream i
               (example_after plain_worker second_batch_open plain_start)) →
    paused (example_after plain_worker second_batch_open plain_start) = true.
Proof.
  assert (reachable example_parse example_getTableName fresh_work
            plain_worker
            (example_after plain_worker second_batch_open plain_start))
    as H1.
  { exists (example_signal 1 false), (example_world "origin" []),
      plain_start, second_batch_open.
    split; [reflexivity|]. split; vm_compute; reflexivity. }
  exact (conj H1 (proj2 (batches_are_sequential _ _ _ _ _ H1))).
Defined.

(** A data-only chunk, session in [local]: one batch is loaded, then the
    query fails. *)
Lemma failure_path_restores_mode_witness :
  copyStreams (example_world "local" []) = [] ∧
  onMessage example_getTableName fresh_work (example_signal 1 true)
    (example_world "local" []) = (Some local_worker, local_start) ∧
  shouldMigrateOnlyData (config (example_signal 1 true)) = true ∧
  pgFaults (example_world "local" []) = [] ∧
  session_replication_role (example_world "local" []) ≠ "" ∧
  forallb (success_event example_parse local_worker) finished_batch = true ∧
  run example_parse local_worker finished_batch local_start =
    Some (example_after local_worker finished_batch local_start) ∧
  success_event example_parse local_worker (QueryError "connection lost")
    = false ∧
  step example_parse local_worker (QueryError "connection lost")
    (example_after local_worker finished_batch local_start) =
    Some (example_after local_worker [QueryError "connection lost"]
            (example_after local_worker finished_batch local_start)) ∧
  session_replication_role
    (example_after local_worker [QueryError "connection lost"]
       (example_after local_worker finished_batch local_start)) =
    session_replication_role (example_world "local" []).
Proof.
  assert (copyStreams (example_world "local" []) = []) as H1 by reflexivity.
  assert (onMessage example_getTableName fresh_work (example_signal 1 true)
            (example_world "local" []) = (Some local_worker, local_start))
    as H2 by (vm_compute; reflexivity).
  assert (shouldMigrateOnlyData (config (example_signal 1 true)) = true)
    as H3 by reflexivity.
  assert (pgFaults (example_world "local" []) = []) as H4 by reflexivity.
  assert (session_replication_role (example_world "local" []) ≠ "") as H5
    by discriminate.
  assert (forallb (success_event example_parse local_worker) finished_batch
          = true) as H6 by reflexivity.
  assert (run example_parse local_worker finished_batch local_start =
          Some (example_after local_worker finished_batch local_start))
    as H7 by (vm_compute; reflexivity).
  assert (success_event example_parse local_worker
            (QueryError "connection lost") = false) as H8 by reflexivity.
  assert (step example_parse local_worker (QueryError "connection lost")
            (example_after local_worker finished_batch local_start) =
          Some (example_after local_worker [QueryError "connection lost"]
                  (example_after local_worker finished_batch local_start)))
    as H9 by (vm_compute; reflexivity).
  exact (conj H1 (conj H2 (conj H3 (conj H4 (conj H5 (conj H6 (conj H7
    (conj H8 (conj H9 (proj1 (failure_path_restores_mode example_parse
       example_getTableName fresh_work _ _ _ _ _ _ _ _
       H1 H2 H3 H4 H5 H6 H7 H8 H9))))))))))).
Defined.

(** The data pool holds the chunks 7 and 8 and the copy stream of the
    first batch of chunk 7 fails: no entry is added and chunk 8 is still in
    the data pool. *)
Lemma only_own_ledger_entry_is_deleted_witness :
  reachable example_parse example_getTableName fresh_work plain_worker
    two_chunks_started ∧
  run example_parse plain_worker failed_batch two_chunks_started =
    Some (example_after plain_worker failed_batch two_chunks_started) ∧
  8 ∈ dataPool two_chunks_started ∖ {[ dataPoolId plain_worker ]} ∧
  dataPool (example_after plain_worker failed_batch two_chunks_started) ⊆
    dataPool two_chunks_started ∧
  8 ∈ dataPool (example_after plain_worker failed_batch two_chunks_started).
Proof.
  assert (reachable example_parse example_getTableName fresh_work
            plain_worker two_chunks_started) as H1.
  { exists (example_signal 1 false), two_chunks_world, two_chunks_started, [].
    split; [reflexivity|]. split; vm_compute; reflexivity. }
  assert (run example_parse plain_worker failed_batch two_chunks_started =
          Some (example_after plain_worker failed_batch two_chunks_started))
    as H2 by (vm_compute; reflexivity).
  assert (8 ∈ dataPool two_chunks_started ∖ {[ dataPoolId plain_worker ]})
    as H3 by (apply (bool_decide_unpack _); vm_compute; exact I).
  destruct (only_own_ledger_entry_is_deleted example_parse
              example_getTableName fresh_work _ _ _ _ H1 H2)
    as (Hsub & Hkeep).
  exact (conj H1 (conj H2 (conj H3 (conj Hsub (Hkeep 8 H3))))).
Defined.

(** A row that cannot be encoded, a copy stream that fails and a query
    that fails: three failures in one chunk. *)
Lemma cleanup_runs_once_per_failure_witness :
  onMessage example_getTableName fresh_work (example_signal 1 false)
    (example_world "origin" []) = (Some plain_worker, plain_start) ∧
  run example_parse plain_worker mixed_failures plain_start =
    Some (example_after plain_worker mixed_failures plain_start) ∧
  failures example_parse plain_worker mixed_failures = 3 ∧
  released (example_after plain_worker mixed_failures plain_start) =
    released (example_world "origin" []) +
    failures example_parse plain_worker mixed_failures.
Proof.
  assert (onMessage example_getTableName fresh_work (example_signal 1 false)
            (example_world "origin" []) = (Some plain_worker, plain_start))
    as H1 by (vm_compute; reflexivity).
  assert (run example_parse plain_worker mixed_failures plain_start =
          Some (example_after plain_worker mixed_failures plain_start)) as H2
    by (vm_compute; reflexivity).
  assert (failures example_parse plain_worker mixed_failures = 3) as H3
    by reflexivity.
  exact (conj H1 (conj H2 (conj H3 (proj1 (cleanup_runs_once_per_failure
    example_parse example_getTableName fresh_work _ _ _ _ _ _ H1 H2))))).
Defined.

(** Three batches of one row. *)
Lemma buffer_holds_every_encoded_row_witness :
  onMessage example_getTableName fresh_work (example_signal 1 false)
    (example_world "origin" []) = (Some plain_worker, plain_start) ∧
  run example_parse plain_worker three_batches plain_start =
    Some (example_after plain_worker three_batches plain_start) ∧
  encoded example_parse plain_worker three_batches = ["a"; "b"; "c"] ∧
  array (dataBuffer plain_worker)
    (example_after plain_worker three_batches plain_start) =
    encoded example_parse plain_worker three_batches.
Proof.
  assert (onMessage example_getTableName fresh_work (example_signal 1 false)
            (example_world "origin" []) = (Some plain_worker, plain_start))
    as H1 by (vm_compute; reflexivity).
  assert (run example_parse plain_worker three_batches plain_start =
          Some (example_after plain_worker three_batches plain_start)) as H2
    by (vm_compute; reflexivity).
  assert (encoded example_parse plain_worker three_batches = ["a"; "b"; "c"])
    as H3 by reflexivity.
  exact (conj H1 (conj H2 (conj H3 (buffer_holds_every_encoded_row
    example_parse example_getTableName fresh_work _ _ _ _ _ _ H1 H2)))).
Defined.

(** The second copy stream of the example is open: it is given [a], which
    the first stream was given already, and [b]. *)
Lemma copy_stream_is_fed_all_rows_so_far_witness :
  copyStreams (example_world "origin" []) = [] ∧
  onMessage example_getTableName fresh_work (example_signal 1 false)
    (example_world "origin" []) = (Some plain_worker, plain_start) ∧
  run example_parse plain_worker second_batch_open plain_start =
    Some (example_after plain_worker second_batch_open plain_start) ∧
  open_stream 1 (example_after plain_worker second_batch_open plain_start) =
    Some (example_stream plain_worker) ∧
  encoded example_parse plain_worker second_batch_open = ["a"; "b"] ∧
  piped_rows (example_stream plain_worker)
    (example_after plain_worker second_batch_open plain_start) =
    encoded example_parse plain_worker second_batch_open.
Proof.
  assert (copyStreams (example_world "origin" []) = []) as H1 by reflexivity.
  assert (onMessage example_getTableName fresh_work (example_signal 1 false)
            (example_world "origin" []) = (Some plain_worker, plain_start))
    as H2 by (vm_compute; reflexivity).
  assert (run example_parse plain_worker second_batch_open plain_start =
          Some (example_after plain_worker second_batch_open plain_start))
    as H3 by (vm_compute; reflexivity).
  assert (open_stream 1
            (example_after plain_worker second_batch_open plain_start) =
          Some (example_stream plain_worker)) as H4
    by (vm_compute; reflexivity).
  assert (encoded example_parse plain_worker second_batch_open = ["a"; "b"])
    as H5 by reflexivity.
  exact (conj H1 (conj H2 (conj H3 (conj H4 (conj H5 (proj2
    (copy_stream_is_fed_all_rows_so_far example_parse example_getTableName
       fresh_work _ _ _ _ _ _ _ _ H1 H2 H3 H4))))))).
Defined.

(** Two rows and a watermark of three. *)
Lemma short_chunk_is_never_loaded_witness :
  copyStreams (example_world "origin" []) = [] ∧
  onMessage example_getTableName fresh_work (example_signal 3 false)
    (example_world "origin" []) =
    (Some (example_worker 3 false None),
     example_started 3 false "origin" []) ∧
  run example_parse (example_worker 3 false None) two_rows_then_end
    (example_started 3 false "origin" []) =
    Some (example_after (example_worker 3 false None) two_rows_then_end
            (example_started 3 false "origin" [])) ∧
  (Z.of_nat (results two_rows_then_end)
     < _streamsHighWaterMark (conversion (example_worker 3 false None)))%Z ∧
  targetRows
    (example_after (example_worker 3 false None) two_rows_then_end
       (example_started 3 false "origin" [])) =
    targetRows (example_world "origin" []).
Proof.
  assert (copyStreams (example_world "origin" []) = []) as H1 by reflexivity.
  assert (onMessage example_getTableName fresh_work (example_signal 3 false)
            (example_world "origin" []) =
          (Some (example_worker 3 false None),
           example_started 3 false "origin" [])) as H2
    by (vm_compute; reflexivity).
  assert (run example_parse (example_worker 3 false None) two_rows_then_end
            (example_started 3 false "origin" []) =
          Some (example_after (example_worker 3 false None)
                  two_rows_then_end (example_started 3 false "origin" [])))
    as H3 by (vm_compute; reflexivity).
  assert ((Z.of_nat (results two_rows_then_end)
             < _streamsHighWaterMark
                 (conversion (example_worker 3 false None)))%Z) as H4
    by reflexivity.
  exact (conj H1 (conj H2 (conj H3 (conj H4 (proj2
    (short_chunk_is_never_loaded example_parse example_getTableName
       fresh_work _ _ _ _ _ _ H1 H2 H3 H4)))))).
Defined.

(** Three failures in a chunk of a migration that is not data-only. *)
Lemma mode_untouched_unless_data_only_witness :
  copyStreams (example_world "origin" []) = [] ∧
  onMessage example_getTableName fresh_work (example_signal 1 false)
    (example_world "origin" []) = (Some plain_worker, plain_start) ∧
  shouldMigrateOnlyData (config (example_signal 1 false)) = false ∧
  run example_parse plain_worker mixed_failures plain_start =
    Some (example_after plain_worker mixed_failures plain_start) ∧
  session_replication_role
    (example_after plain_worker mixed_failures plain_start) =
    session_replication_role (example_world "origin" []).
Proof.
  assert (copyStreams (example_world "origin" []) = []) as H1 by reflexivity.
  assert (onMessage example_getTableName fresh_work (example_signal 1 false)
            (example_world "origin" []) = (Some plain_worker, plain_start))
    as H2 by (vm_compute; reflexivity).
  assert (shouldMigrateOnlyData (config (example_signal 1 false)) = false)
    as H3 by reflexivity.
  assert (run example_parse plain_worker mixed_failures plain_start =
          Some (example_after plain_worker mixed_failures plain_start)) as H4
    by (vm_compute; reflexivity).
  exact (conj H1 (conj H2 (conj H3 (conj H4 (proj1
    (mode_untouched_unless_data_only example_parse example_getTableName
       fresh_work _ _ _ _ _ _ H1 H2 H3 H4)))))).
Defined.
